(** * Neonatal early-onset sepsis calculator: the risk model of [src/App.js]

    The calculator keeps six selections (all JavaScript strings), derives the
    risk string [sepsisRisk] from them with IEEE-754 double arithmetic and
    [Number.prototype.toFixed], and derives the care recommendation from the
    risk string.

    JavaScript numbers are modelled by Rocq's primitive binary64 floats, whose
    operations are the IEEE-754 round-to-nearest-even ones that JavaScript
    uses.  JavaScript strings are modelled by [string], holding the UTF-8
    encoding of the text (the escape u2265 of the source is the
    three bytes of the character it names). *)

From Stdlib Require Import ZArith Floats Lia Ascii String.
From stdpp Require Import base strings list gmap.

Set Warnings "-inexact-float".
Local Open Scope string_scope.
Local Open Scope Z_scope.

(** ** The parts of the JavaScript runtime that the component calls *)

Module JS.

(** The Number type. *)
Definition Number := float.

Definition byte (c : ascii) : Z := Z.of_N (Ascii.N_of_ascii c).

Definition isDigit (c : ascii) : bool := (48 <=? byte c) && (byte c <=? 57).

Definition digitChar (d : Z) : ascii := Ascii.ascii_of_N (Z.to_N (48 + d)).

(** *** Decimal text to Number

    [RoundMV neg N E] is the double nearest to [(-1)^neg * N * 10^E], ties
    to even, overflowing to infinity: the quotient is cut two bits (or
    more) below the 53 bits of a double with a sticky bit for the
    remainder, and then rounded by the format's own rounding.  (ECMAScript
    lets an engine round a literal of more than 20 significant digits from
    its first 20; the engines round the whole literal, as is done here.) *)
Definition RoundMV (neg : bool) (N E : Z) : Number :=
  if N =? 0 then (if neg then PrimFloat.neg_zero else PrimFloat.zero) else
  let num := if 0 <=? E then N * 10 ^ E else N in
  let den := if 0 <=? E then 1 else 10 ^ (- E) in
  let k := Z.max 0 (Z.log2 den + 55 - Z.log2 num) in
  let q := (num * 2 ^ k) / den in
  let sticky := if (num * 2 ^ k) mod den =? 0 then 0 else 1 in
  let m := 2 * q + sticky in
  SF2Prim (binary_normalize prec emax (if neg then - m else m) (- k - 1) false).

(** White space and line terminators at the start of a string
    (TAB, LF, VT, FF, CR, SP, and in UTF-8: U+00A0, U+1680, U+2000..U+200A,
    U+2028, U+2029, U+202F, U+205F, U+3000, U+FEFF). *)
Definition isWhiteSpace1 (b : Z) : bool :=
  ((9 <=? b) && (b <=? 13)) || (b =? 32).

Definition isWhiteSpace3 (b1 b2 b3 : Z) : bool :=
  ((b1 =? 225) && (b2 =? 154) && (b3 =? 128))
  || ((b1 =? 226) && (b2 =? 128)
        && (((128 <=? b3) && (b3 <=? 138)) || (b3 =? 168) || (b3 =? 169) || (b3 =? 175)))
  || ((b1 =? 226) && (b2 =? 129) && (b3 =? 159))
  || ((b1 =? 227) && (b2 =? 128) && (b3 =? 128))
  || ((b1 =? 239) && (b2 =? 187) && (b3 =? 191)).

Fixpoint TrimStart (s : string) : string :=
  match s with
  | String c1 r1 =>
      if isWhiteSpace1 (byte c1) then TrimStart r1 else
      match r1 with
      | String c2 r2 =>
          if (byte c1 =? 194) && (byte c2 =? 160) then TrimStart r2 else
          match r2 with
          | String c3 r3 =>
              if isWhiteSpace3 (byte c1) (byte c2) (byte c3) then TrimStart r3 else s
          | EmptyString => s
          end
      | EmptyString => s
      end
  | EmptyString => s
  end.

(** The longest run of decimal digits at the start of [s]: its value on
    top of [acc], the number of digits read on top of [cnt], and the rest. *)
Fixpoint takeDigits (s : string) (acc cnt : Z) : Z * Z * string :=
  match s with
  | String c r =>
      if isDigit c then takeDigits r (10 * acc + (byte c - 48)) (cnt + 1)
      else (acc, cnt, s)
  | EmptyString => (acc, cnt, s)
  end.

(** An ExponentPart at the start of [s] (0 when there is none: an "e" that
    no digit follows is not part of the literal). *)
Definition exponentPart (s : string) : Z :=
  match s with
  | String c r =>
      if (byte c =? 101) || (byte c =? 69) then
        let '(sgn, r') :=
          match r with
          | String c' r' =>
              if byte c' =? 43 then (1, r')
              else if byte c' =? 45 then (-1, r')
              else (1, r)
          | EmptyString => (1, r)
          end in
        let '(v, cnt, _) := takeDigits r' 0 0 in
        if cnt =? 0 then 0 else sgn * v
      else 0
  | EmptyString => 0
  end.

Fixpoint startsWith (p s : string) : bool :=
  match p, s with
  | EmptyString, _ => true
  | String a p', String b s' => (byte a =? byte b) && startsWith p' s'
  | String _ _, EmptyString => false
  end.

(** [parseFloat]: trim, read the longest prefix that is a StrDecimalLiteral,
    NaN when there is none. *)
Definition parseFloat (input : string) : Number :=
  let s := TrimStart input in
  let '(neg, s1) :=
    match s with
    | String c r =>
        if byte c =? 45 then (true, r)
        else if byte c =? 43 then (false, r)
        else (false, s)
    | EmptyString => (false, s)
    end in
  if startsWith "Infinity" s1 then (if neg then PrimFloat.neg_infinity else PrimFloat.infinity) else
  let '(n1, k1, r1) := takeDigits s1 0 0 in
  let '(n2, k2, r2) :=
    match r1 with
    | String c r => if byte c =? 46 then takeDigits r 0 0 else (0, 0, r1)
    | EmptyString => (0, 0, r1)
    end in
  if (k1 =? 0) && (k2 =? 0) then PrimFloat.nan
  else RoundMV neg (n1 * 10 ^ k2 + n2) (exponentPart r2 - k2).

(** The global [isNaN], on a Number. *)
Definition isNaN (x : Number) : bool := PrimFloat.is_nan x.

(** *** Number to decimal text *)

Fixpoint digitsAux (fuel : nat) (n : Z) (acc : string) : string :=
  match fuel with
  | O => acc
  | S fuel' =>
      let acc' := String (digitChar (n mod 10)) acc in
      if n <? 10 then acc' else digitsAux fuel' (n / 10) acc'
  end.

(** The decimal digits of [n >= 0], "0" for 0. *)
Definition decimalDigits (n : Z) : string :=
  digitsAux (S (Z.to_nat (Z.log2 n))) n "".

Fixpoint zeros (k : nat) : string :=
  match k with
  | O => ""
  | S k' => String "0" (zeros k')
  end.

(** Step 11.c of [toFixed]: the digits [m] padded with zeros to [f + 1]
    characters, and the point before the last [f]. *)
Definition withPoint (m : string) (f : nat) : string :=
  let k := String.length m in
  let m := if (k <=? f)%nat then zeros (f + 1 - k) +:+ m else m in
  let k := String.length m in
  substring 0 (k - f) m +:+ "." +:+ substring (k - f) f m.

(** Steps 11.a-11.c of [toFixed]: the digits of [n], with the point when
    [f] is not 0. *)
Definition fixedDigits (n : Z) (f : nat) : string :=
  let m := decimalDigits n in
  match f with
  | O => m
  | S _ => withPoint m f
  end.

(** The integer nearest to [m * 2^e * 10^f], the larger one at a tie. *)
Definition nearestScaled (m e : Z) (f : nat) : Z :=
  let v := m * 10 ^ Z.of_nat f in
  if 0 <=? e then v * 2 ^ e
  else (2 * v + 2 ^ (- e)) / (2 * 2 ^ (- e)).

(** [Number::toString] for a finite double [m * 2^e >= 10^21], an integer:
    the shortest digit string [s] (of [k] digits) with [s * 10^(n-k)]
    rounding back to the double, the closest one when several have that
    length, printed in exponent form. *)
Definition roundTrips (m : positive) (e v2 : Z) : bool :=
  (* [v2] is twice the candidate; the bounds are twice the midpoints *)
  let x2 := 2 * Z.pos m * 2 ^ e in
  let hi := x2 + 2 ^ e in
  let lo := if (Z.pos m =? 2 ^ 52) then x2 - 2 ^ (e - 1) else x2 - 2 ^ e in
  let even := Z.even (Z.pos m) in
  ((lo <? v2) && (v2 <? hi)) || (even && ((v2 =? lo) || (v2 =? hi))).

Definition candidates (m : positive) (e : Z) (nd k : Z) : list (Z * Z * Z) :=
  (* (distance, s, n) of each [s * 10^(n-k)] that rounds back *)
  let x := Z.pos m * 2 ^ e in
  c ← [(x / 10 ^ (nd - k), nd); (x / 10 ^ (nd - k) + 1, nd);
       (x / 10 ^ (nd + 1 - k), nd + 1); (x / 10 ^ (nd + 1 - k) + 1, nd + 1)];
  let '(s, n) := c in
  if (10 ^ (k - 1) <=? s) && (s <? 10 ^ k) && roundTrips m e (2 * s * 10 ^ (n - k))
  then [(Z.abs (s * 10 ^ (n - k) - x), s, n)] else [].

Definition nearer (a b : Z * Z * Z) : Z * Z * Z :=
  if b.1.1 <? a.1.1 then b else a.

Fixpoint shortest (fuel : nat) (m : positive) (e nd k : Z) : Z * Z :=
  match fuel with
  | O => (Z.pos m * 2 ^ e, nd)
  | S fuel' =>
      match candidates m e nd k with
      | c :: l => let b := foldl nearer c l in (b.1.2, b.2)
      | [] => shortest fuel' m e nd (k + 1)
      end
  end.

Definition toStringLarge (m : positive) (e : Z) : string :=
  let nd := Z.of_nat (String.length (decimalDigits (Z.pos m * 2 ^ e))) in
  let '(s, n) := shortest (Z.to_nat nd) m e nd 1 in
  match decimalDigits s with
  | String d EmptyString => String d ("e+" +:+ decimalDigits (n - 1))
  | String d r => String d ("." +:+ r +:+ "e+" +:+ decimalDigits (n - 1))
  | EmptyString => ""
  end.

(** [Number.prototype.toFixed] with [f] fraction digits ([f <= 100]). *)
Definition toFixed (x : Number) (f : nat) : string :=
  match Prim2SF x with
  | S754_nan => "NaN"
  | S754_infinity false => "Infinity"
  | S754_infinity true => "-Infinity"
  | S754_zero _ => fixedDigits 0 f
  | S754_finite neg m e =>
      let s := if neg then "-" else "" in
      if (0 <=? e) && (10 ^ 21 <=? Z.pos m * 2 ^ e)
      then s +:+ toStringLarge m e
      else s +:+ fixedDigits (nearestScaled (Z.pos m) e f) f
  end.

(** [ToNumber] of the value of a property access [o[k]] on an object whose
    own properties are numbers: a key that is not an own property reads
    [undefined], or for the names on [Object.prototype] an inherited
    function or object, and [ToNumber] of each of those is NaN. *)
Definition ToNumber (v : option Number) : Number :=
  match v with
  | Some x => x
  | None => PrimFloat.nan
  end.

End JS.

(** ** The component [App] of [src/App.js] *)

Module App.
Import JS.

(** Default incidence rate, per 1000 live births. *)
Definition DEFAULT_INCIDENCE : string := "0.5".

Module LIKELIHOOD_RATIOS.
Local Open Scope float_scope.

Definition gestationalAge : gmap string Number :=
  {[ "≥42" := 1.4;
     "41 0/7-41 6/7" := 1.1;
     "40 0/7-40 6/7" := 0.8;
     "39 0/7-39 6/7" := 0.6;
     "38 0/7-38 6/7" := 0.5;
     "37 0/7-37 6/7" := 0.4;
     "36 0/7-36 6/7" := 0.7;
     "35 0/7-35 6/7" := 1.3;
     "≤34 6/7" := 2.3 ]}.

Definition rom : gmap string Number :=
  {[ "<12" := 0.6;
     "12-18" := 1.3;
     "18-24" := 1.7;
     ">24" := 2.1 ]}.

Definition highestTemp : gmap string Number :=
  {[ "<38" := 0.4;
     "≥38" := 3.7 ]}.

Definition gbsStatus : gmap string Number :=
  {[ "positive" := 2.0;
     "negative" := 0.4;
     "unknown" := 1.0 ]}.

Definition iap : gmap string Number :=
  {[ "adequate_pen_amp" := 0.2;
     "adequate_cefazolin" := 0.4;
     "adequate_clinda_vanco" := 0.9;
     "inadequate_or_no" := 1.0;
     "no_iap_needed" := 1.0 ]}.

End LIKELIHOOD_RATIOS.

(** The constant [lrIap] of the calculation: the IAP ratio counts only for
    a GBS-positive mother and a choice other than "not applicable". *)
Definition lrIap (gbsStatus iap : string) : option Number :=
  if String.eqb iap "no_iap_needed" || negb (String.eqb gbsStatus "positive")
  then Some 1.0%float
  else LIKELIHOOD_RATIOS.iap !! iap.

(** The memoized calculation [sepsisRisk], as a function of the six state
    values it depends on (the spec's [computeRisk]). *)
Definition sepsisRisk
    (incidence gestationalAge highestTemp rom gbsStatus iap : string) : string :=
  let numericIncidence := parseFloat incidence in
  if isNaN numericIncidence || (numericIncidence <=? 0)%float then "0.00" else

  let priorOdds := (numericIncidence / (1000 - numericIncidence))%float in

  let lrGestationalAge := LIKELIHOOD_RATIOS.gestationalAge !! gestationalAge in
  let lrHighestTemp := LIKELIHOOD_RATIOS.highestTemp !! highestTemp in
  let lrRom := LIKELIHOOD_RATIOS.rom !! rom in
  let lrGbsStatus := LIKELIHOOD_RATIOS.gbsStatus !! gbsStatus in
  let lrIap := lrIap gbsStatus iap in

  let combinedLR :=
    (ToNumber lrGestationalAge * ToNumber lrHighestTemp * ToNumber lrRom
     * ToNumber lrGbsStatus * ToNumber lrIap)%float in
  let posteriorOdds := (priorOdds * combinedLR)%float in
  let posteriorProbability := (posteriorOdds / (1 + posteriorOdds))%float in

  toFixed (posteriorProbability * 1000)%float 2.

(** The recommendation shown for a risk string. *)
Record Recommendation := { text : string; color : string }.

(** The threshold function on the parsed risk (the spec's [classify]). *)
Definition classify (risk : Number) : Recommendation :=
  if (1.18 <? risk)%float
  then {| text := "Empiric Antibiotics Recommended"; color := "bg-red-500" |}
  else if (0.65 <=? risk)%float && (risk <=? 1.18)%float
  then {| text := "Enhanced Vital Signs"; color := "bg-yellow-500" |}
  else {| text := "Routine Care"; color := "bg-green-500" |}.

Definition recommendation (sepsisRisk : string) : Recommendation :=
  let risk := parseFloat sepsisRisk in
  classify risk.

(** *** The state of the form and its events *)

Record FormState := {
  incidence : string;
  gestationalAge : string;
  highestTemp : string;
  rom : string;
  gbsStatus : string;
  iap : string
}.

(** The initial values given to [useState]. *)
Definition initialState : FormState :=
  {| incidence := DEFAULT_INCIDENCE;
     gestationalAge := "≥42";
     highestTemp := "<38";
     rom := "<12";
     gbsStatus := "negative";
     iap := "no_iap_needed" |}.

Definition setIncidence (v : string) (st : FormState) : FormState :=
  {| incidence := v; gestationalAge := gestationalAge st;
     highestTemp := highestTemp st; rom := rom st;
     gbsStatus := gbsStatus st; iap := iap st |}.

Definition setGestationalAge (v : string) (st : FormState) : FormState :=
  {| incidence := incidence st; gestationalAge := v;
     highestTemp := highestTemp st; rom := rom st;
     gbsStatus := gbsStatus st; iap := iap st |}.

Definition setHighestTemp (v : string) (st : FormState) : FormState :=
  {| incidence := incidence st; gestationalAge := gestationalAge st;
     highestTemp := v; rom := rom st;
     gbsStatus := gbsStatus st; iap := iap st |}.

Definition setRom (v : string) (st : FormState) : FormState :=
  {| incidence := incidence st; gestationalAge := gestationalAge st;
     highestTemp := highestTemp st; rom := v;
     gbsStatus := gbsStatus st; iap := iap st |}.

Definition setGbsStatus (v : string) (st : FormState) : FormState :=
  {| incidence := incidence st; gestationalAge := gestationalAge st;
     highestTemp := highestTemp st; rom := rom st;
     gbsStatus := v; iap := iap st |}.

Definition setIap (v : string) (st : FormState) : FormState :=
  {| incidence := incidence st; gestationalAge := gestationalAge st;
     highestTemp := highestTemp st; rom := rom st;
     gbsStatus := gbsStatus st; iap := v |}.

(** Reset calculator to initial state. *)
Definition handleReset (st : FormState) : FormState :=
  setIap "no_iap_needed"
    (setGbsStatus "negative"
      (setRom "<12"
        (setHighestTemp "<38"
          (setGestationalAge "≥42"
            (setIncidence DEFAULT_INCIDENCE st))))).

(** Effect to handle GBS status change (the body of the [useEffect]). *)
Definition gbsEffect (st : FormState) : FormState :=
  if negb (String.eqb (gbsStatus st) "positive")
  then setIap "no_iap_needed" st
  else st.

(** What the user can do: change one of the six selects to [v]
    ([e.target.value]) or click Reset. *)
Inductive Event :=
| ChangeIncidence (v : string)
| ChangeGestationalAge (v : string)
| ChangeHighestTemp (v : string)
| ChangeRom (v : string)
| ChangeGbsStatus (v : string)
| ChangeIap (v : string)
| ClickReset.

(** The handler wired to each event. *)
Definition handle (ev : Event) (st : FormState) : FormState :=
  match ev with
  | ChangeIncidence v => setIncidence v st
  | ChangeGestationalAge v => setGestationalAge v st
  | ChangeHighestTemp v => setHighestTemp v st
  | ChangeRom v => setRom v st
  | ChangeGbsStatus v => setGbsStatus v st
  | ChangeIap v => setIap v st
  | ClickReset => handleReset st
  end.

(** The IAP select is rendered with [disabled={gbsStatus !== 'positive'}];
    a disabled select raises no change event. *)
Definition iapDisabled (st : FormState) : bool :=
  negb (String.eqb (gbsStatus st) "positive").

Definition enabled (st : FormState) (ev : Event) : bool :=
  match ev with
  | ChangeIap _ => negb (iapDisabled st)
  | _ => true
  end.

(** After the render that follows a handler, the effect runs when its
    dependency [gbsStatus] differs from the previous render's; the state it
    sets leaves [gbsStatus] as it is, so it does not run again. *)
Definition runEffects (prev next : FormState) : FormState :=
  if String.eqb (gbsStatus prev) (gbsStatus next) then next else gbsEffect next.

(** One event, up to the state in which React settles. *)
Definition step (st : FormState) (ev : Event) : FormState :=
  runEffects st (handle ev st).

(** The state after mounting: every effect runs once after the first
    render. *)
Definition mounted : FormState := gbsEffect initialState.

(** The settled states that the user can reach. *)
Inductive reachable : FormState -> Prop :=
| reachable_mounted : reachable mounted
| reachable_step st ev :
    reachable st -> enabled st ev = true -> reachable (step st ev).

(** The risk and the recommendation rendered in a state. *)
Definition renderedRisk (st : FormState) : string :=
  sepsisRisk (incidence st) (gestationalAge st) (highestTemp st) (rom st)
    (gbsStatus st) (iap st).

Definition renderedRecommendation (st : FormState) : Recommendation :=
  recommendation (renderedRisk st).

(** The keys of the [options] object of each select, in the order written. *)
Definition incidenceOptions : list string :=
  ["0.2"; "0.3"; "0.5"; "0.7"; "1.0"].

Definition gestationalAgeOptions : list string :=
  ["≤34 6/7"; "35 0/7-35 6/7"; "36 0/7-36 6/7"; "37 0/7-37 6/7";
   "38 0/7-38 6/7"; "39 0/7-39 6/7"; "40 0/7-40 6/7"; "41 0/7-41 6/7"; "≥42"].

Definition highestTempOptions : list string := ["<38"; "≥38"].

Definition romOptions : list string := ["<12"; "12-18"; "18-24"; ">24"].

Definition gbsStatusOptions : list string := ["positive"; "negative"; "unknown"].

Definition iapOptions : list string :=
  ["no_iap_needed"; "adequate_pen_amp"; "adequate_cefazolin";
   "adequate_clinda_vanco"; "inadequate_or_no"].

End App.

(** ** The risk calculation in the words of the specification (section 4.2) *)

Module Spec.
Import JS App.
Local Open Scope float_scope.

(** Step 1: the incidence is a finite positive number. *)
Definition finitePositive (incidence : Number) : bool :=
  is_finite incidence && (0 <? incidence).

(** Step 4: the effective IAP LR. *)
Definition effectiveIapLR (gbsStatus iap : string) : option Number :=
  if decide (iap = "no_iap_needed" \/ gbsStatus <> "positive")
  then Some 1.0
  else LIKELIHOOD_RATIOS.iap !! iap.

(** Steps 2 and 5 to 7, and the product of step 8. *)
Definition posteriorPer1000
    (incidence lrGestationalAge lrTemperature lrRom lrGbs lrIapEffective : Number)
    : Number :=
  let priorOdds := incidence / (1000 - incidence) in
  let combinedLR :=
    lrGestationalAge * lrTemperature * lrRom * lrGbs * lrIapEffective in
  let posteriorOdds := priorOdds * combinedLR in
  let posteriorProbability := posteriorOdds / (1 + posteriorOdds) in
  posteriorProbability * 1000.

(** [n] hundredths are nearest to [m * 2^e]: [n - 100 * m * 2^e] lies in
    [-1/2, 1/2), written without fractions. *)
Definition nearestHundredths (m : positive) (e : Z) (n : Z) : Prop :=
  if (0 <=? e)%Z then n = (100 * Z.pos m * 2 ^ e)%Z
  else (- 2 ^ (- e) <= 2 * (100 * Z.pos m) - 2 * n * 2 ^ (- e) < 2 ^ (- e))%Z.

(** The numbers that fixed-point notation applies to: finite, and below
    10^21 in magnitude. *)
Definition fixedPointRange (v : Number) : Prop :=
  match Prim2SF v with
  | S754_zero _ => True
  | S754_finite _ m e => (e < 0 \/ Z.pos m * 2 ^ e < 10 ^ 21)%Z
  | _ => False
  end.

(** Step 8's rounding: [s] is [v] rounded to exactly 2 decimal places, in
    fixed-point notation: a sign when [v] is negative, the digits of the
    whole part, a point and two digits, for the nearest hundredths. *)
Definition roundedTo2 (v : Number) (s : string) : Prop :=
  match Prim2SF v with
  | S754_zero _ => s = "0.00"%string
  | S754_finite neg m e =>
      exists n : Z,
        (0 <= n)%Z /\ nearestHundredths m e n
        /\ s = (if neg then "-" else "")
               +:+ decimalDigits (n / 100)
               +:+ String "." (String (digitChar (n / 10 mod 10))
                                 (String (digitChar (n mod 10)) ""))
  | _ => False
  end.

End Spec.

(** ** Predicates used to state the properties *)

Module Props.
Import JS App.
Local Open Scope float_scope.

(** A string of one digit or more, a point, and exactly two digits. *)
Definition isFixed2 (s : string) : bool :=
  let '(_, cnt, rest) := takeDigits s 0 0 in
  (0 <? cnt)%Z &&
  match rest with
  | String p (String d1 (String d2 EmptyString)) =>
      (byte p =? 46)%Z && isDigit d1 && isDigit d2
  | _ => false
  end.

(** Every combination of option keys of the five category selects. *)
Definition forCodes (P : string -> string -> string -> string -> string -> bool) : bool :=
  forallb (fun ga =>
    forallb (fun t =>
      forallb (fun r =>
        forallb (fun b =>
          forallb (fun a => P ga t r b a) iapOptions)
          gbsStatusOptions)
        romOptions)
      highestTempOptions)
    gestationalAgeOptions.

(** The number that [sepsisRisk] hands to [toFixed], past the guard:
    [posteriorProbability * 1000]. *)
Definition unroundedRisk (incidence ga t r b a : string) : Number :=
  Spec.posteriorPer1000 (parseFloat incidence)
    (ToNumber (LIKELIHOOD_RATIOS.gestationalAge !! ga))
    (ToNumber (LIKELIHOOD_RATIOS.highestTemp !! t))
    (ToNumber (LIKELIHOOD_RATIOS.rom !! r))
    (ToNumber (LIKELIHOOD_RATIOS.gbsStatus !! b))
    (ToNumber (lrIap b a)).

(** For one combination of codes and each preset incidence: the parsed
    incidence, the unrounded risk, and the number that the risk string
    denotes. *)
Definition presetRisks (ga t r b a : string) : list (Number * Number * Number) :=
  (fun inc => (parseFloat inc, unroundedRisk inc ga t r b a,
               parseFloat (sepsisRisk inc ga t r b a)))
    <$> incidenceOptions.

(** A larger incidence has a larger unrounded risk, and a risk string that
    is not smaller. *)
Definition increasing (l : list (Number * Number * Number)) : bool :=
  forallb (fun p =>
    forallb (fun q =>
      implb (p.1.1 <? q.1.1) ((p.1.2 <? q.1.2) && (p.2 <=? q.2))) l) l.

(** The invariant of the form: IAP is "not applicable" unless the GBS status
    is positive. *)
Definition synchronised (st : FormState) : Prop :=
  gbsStatus st <> "positive" -> iap st = "no_iap_needed".

(** A positive mother given penicillin, whose status is then corrected to
    unknown. *)
Definition exampleRun : FormState :=
  step (step mounted (ChangeGbsStatus "positive")) (ChangeIap "adequate_pen_amp").

End Props.

(** ** The form in use: predicates for the behaviour of the whole component *)

Module Ui.
Import JS App Props.
Local Open Scope float_scope.

(** The three values that [recommendation] returns. *)
Definition empiric : Recommendation :=
  {| text := "Empiric Antibiotics Recommended"; color := "bg-red-500" |}.

Definition enhanced : Recommendation :=
  {| text := "Enhanced Vital Signs"; color := "bg-yellow-500" |}.

Definition routine : Recommendation :=
  {| text := "Routine Care"; color := "bg-green-500" |}.

(** The constant [combinedLR] of the calculation. *)
Definition combinedLR (ga t r b a : string) : Number :=
  ToNumber (LIKELIHOOD_RATIOS.gestationalAge !! ga)
  * ToNumber (LIKELIHOOD_RATIOS.highestTemp !! t)
  * ToNumber (LIKELIHOOD_RATIOS.rom !! r)
  * ToNumber (LIKELIHOOD_RATIOS.gbsStatus !! b)
  * ToNumber (lrIap b a).

(** A change event of a select carries one of the keys of its [options]
    (each select renders one [option] per key, with the key as its value). *)
Definition offered (ev : Event) : Prop :=
  match ev with
  | ChangeIncidence v => v ∈ incidenceOptions
  | ChangeGestationalAge v => v ∈ gestationalAgeOptions
  | ChangeHighestTemp v => v ∈ highestTempOptions
  | ChangeRom v => v ∈ romOptions
  | ChangeGbsStatus v => v ∈ gbsStatusOptions
  | ChangeIap v => v ∈ iapOptions
  | ClickReset => True
  end.

(** The settled states that the user reaches through the rendered form. *)
Inductive reachableUi : FormState -> Prop :=
| reachableUi_mounted : reachableUi mounted
| reachableUi_step st ev :
    reachableUi st -> enabled st ev = true -> offered ev ->
    reachableUi (step st ev).

(** Every selection is a key of the options of its select. *)
Definition withinOptions (st : FormState) : Prop :=
  incidence st ∈ incidenceOptions
  /\ gestationalAge st ∈ gestationalAgeOptions
  /\ highestTemp st ∈ highestTempOptions
  /\ rom st ∈ romOptions
  /\ gbsStatus st ∈ gbsStatusOptions
  /\ iap st ∈ iapOptions.

(** The six pieces of state; a change event targets one, Reset none. *)
Inductive Field :=
| FIncidence | FGestationalAge | FHighestTemp | FRom | FGbsStatus | FIap.

Definition target (ev : Event) : option Field :=
  match ev with
  | ChangeIncidence _ => Some FIncidence
  | ChangeGestationalAge _ => Some FGestationalAge
  | ChangeHighestTemp _ => Some FHighestTemp
  | ChangeRom _ => Some FRom
  | ChangeGbsStatus _ => Some FGbsStatus
  | ChangeIap _ => Some FIap
  | ClickReset => None
  end.

(** The selections that no rule of the component reads or writes. *)
Definition free (f : Field) : bool :=
  match f with
  | FGbsStatus | FIap => false
  | _ => true
  end.

(** Every combination of option keys of the five category selects, as
    tuples. *)
Definition allCodes : list (string * string * string * string * string) :=
  ga ← gestationalAgeOptions; t ← highestTempOptions; r ← romOptions;
  b ← gbsStatusOptions; a ← iapOptions; [(ga, t, r, b, a)].

(** For one incidence: the combined ratio of each combination with the
    number that its risk string denotes. *)
Definition riskByRatio (inc : string) : list (Number * Number) :=
  (fun c => let '(ga, t, r, b, a) := c in
            (combinedLR ga t r b a, parseFloat (sepsisRisk inc ga t r b a)))
    <$> allCodes.

Definition ordered (l : list (Number * Number)) : bool :=
  forallb (fun p => forallb (fun q => implb (p.1 <=? q.1) (p.2 <=? q.2)) l) l.

(** The risk string has two decimals and denotes a number from 0.01 to
    34.54. *)
Definition inRange (risk : string) : bool :=
  isFixed2 risk && (0.01 <=? parseFloat risk) && (parseFloat risk <=? 34.54).

End Ui.

Import JS App Props.

(** Closed facts about the model (a membership in an option list, a
    comparison of two literals) hold by evaluation. *)
Ltac by_evaluation := vm_compute; repeat constructor.

(** ** The runtime model on known values *)

Section Runtime.
Local Open Scope float_scope.

(** [parseFloat] agrees with the literals of the source on the texts that
    the calculator meets, and reads the longest numeric prefix. *)
Example parseFloat_values :
  parseFloat "0.2" = 0.2 /\ parseFloat "0.3" = 0.3 /\ parseFloat "0.5" = 0.5
  /\ parseFloat "0.7" = 0.7 /\ parseFloat "1.0" = 1
  /\ parseFloat "0.65" = 0.65 /\ parseFloat "1.18" = 1.18
  /\ parseFloat "  -1" = -1 /\ parseFloat "5.e3" = 5000
  /\ parseFloat ".5e-1x" = 0.05 /\ parseFloat "1e" = 1
  /\ parseFloat "9007199254740993" = 9007199254740992
  /\ parseFloat "4.9e-324" = 0x1p-1074 /\ parseFloat "1e400" = infinity
  /\ parseFloat "-Infinityx" = neg_infinity /\ parseFloat "-0" = neg_zero
  /\ parseFloat "" = nan /\ parseFloat "abc" = nan /\ parseFloat ".e3" = nan
  /\ parseFloat "NaN" = nan.
Proof. repeat split; vm_compute; reflexivity. Qed.

(** [toFixed] on values whose output in the engines is known. *)
Example toFixed_values :
  toFixed 3.5591 2 = "3.56"%string /\ toFixed 0 2 = "0.00"%string
  /\ toFixed neg_zero 2 = "0.00"%string /\ toFixed 0.005 2 = "0.01"%string
  /\ toFixed 1.005 2 = "1.00"%string /\ toFixed 8.345 2 = "8.35"%string
  /\ toFixed (-0.001) 2 = "-0.00"%string /\ toFixed 2.5 0 = "3"%string
  /\ toFixed (-1.5) 0 = "-2"%string /\ toFixed 1234.5678 1 = "1234.6"%string
  /\ toFixed 0.000001 7 = "0.0000010"%string
  /\ toFixed 999999999999999868928 2 = "999999999999999868928.00"%string
  /\ toFixed 1e21 2 = "1e+21"%string
  /\ toFixed 1180591620717411303424 2 = "1.1805916207174113e+21"%string
  /\ toFixed 1e23 2 = "1e+23"%string
  /\ toFixed nan 2 = "NaN"%string /\ toFixed neg_infinity 2 = "-Infinity"%string.
Proof. repeat split; vm_compute; reflexivity. Qed.

End Runtime.

(** ** Facts about doubles *)

Section FloatFacts.
Local Open Scope float_scope.

Lemma compare_cont_flip (p q : positive) :
  PosDef.Pos.compare_cont Eq q p = CompOpp (PosDef.Pos.compare_cont Eq p q).
Proof. symmetry. exact (Pos.compare_cont_antisym p q Eq). Qed.

Lemma SFcompare_antisym (x y : spec_float) :
  SFcompare y x = option_map CompOpp (SFcompare x y).
Proof.
  destruct x as [sx|sx| |sx mx ex], y as [sy|sy| |sy my ey]; simpl;
    try reflexivity;
    try (destruct sx; reflexivity); try (destruct sy; reflexivity);
    try (destruct sx, sy; reflexivity).
  destruct sx, sy; simpl; try reflexivity;
    rewrite (Z.compare_antisym ex ey), (compare_cont_flip mx my);
    destruct (ex ?= ey)%Z; simpl; try reflexivity;
    destruct (PosDef.Pos.compare_cont Eq mx my); reflexivity.
Qed.

(** [x <= y] excludes [y < x]. *)
Lemma leb_not_gt (x y : float) : (x <=? y) = true -> (y <? x) = false.
Proof.
  rewrite leb_spec, ltb_spec. unfold SFleb, SFltb.
  rewrite (SFcompare_antisym (Prim2SF x) (Prim2SF y)).
  destruct (SFcompare (Prim2SF x) (Prim2SF y)) as [[]|]; simpl; congruence.
Qed.

(** [x < y] excludes [y <= x]. *)
Lemma ltb_not_ge (x y : float) : (x <? y) = true -> (y <=? x) = false.
Proof.
  rewrite leb_spec, ltb_spec. unfold SFleb, SFltb.
  rewrite (SFcompare_antisym (Prim2SF x) (Prim2SF y)).
  destruct (SFcompare (Prim2SF x) (Prim2SF y)) as [[]|]; simpl; congruence.
Qed.

Lemma compare_cont_Eq_spec (p q : positive) :
  CompareSpec (p = q) (p < q)%positive (q < p)%positive
    (PosDef.Pos.compare_cont Eq p q).
Proof. exact (Pos.compare_spec p q). Qed.

Lemma SFltb_trans (x y z : spec_float) :
  SFltb x y = true -> SFltb y z = true -> SFltb x z = true.
Proof.
  unfold SFltb.
  destruct x as [sx|sx| |sx mx ex], y as [sy|sy| |sy my ey], z as [sz|sz| |sz mz ez];
    simpl; try discriminate; try reflexivity;
    repeat match goal with s : bool |- _ => destruct s end;
    simpl; try discriminate; try reflexivity;
    destruct (Z.compare_spec ex ey), (Z.compare_spec ey ez), (Z.compare_spec ex ez);
    simpl; try discriminate; try reflexivity; try lia;
    destruct (compare_cont_Eq_spec mx my), (compare_cont_Eq_spec my mz),
      (compare_cont_Eq_spec mx mz);
    simpl; try discriminate; try reflexivity; try lia.
Qed.

Lemma ltb_trans (x y z : float) :
  (x <? y) = true -> (y <? z) = true -> (x <? z) = true.
Proof. rewrite !ltb_spec. apply SFltb_trans. Qed.

(** NaN is absorbing for the four operations. *)
Lemma mul_nan_l (x : float) : nan * x = nan.
Proof. apply Prim2SF_inj. rewrite mul_spec. reflexivity. Qed.

Lemma mul_nan_r (x : float) : x * nan = nan.
Proof.
  apply Prim2SF_inj. rewrite mul_spec.
  change (Prim2SF nan) with S754_nan. destruct (Prim2SF x); reflexivity.
Qed.

Lemma add_nan_r (x : float) : x + nan = nan.
Proof.
  apply Prim2SF_inj. rewrite add_spec.
  change (Prim2SF nan) with S754_nan. destruct (Prim2SF x); reflexivity.
Qed.

Lemma div_nan_l (x : float) : nan / x = nan.
Proof. apply Prim2SF_inj. rewrite div_spec. reflexivity. Qed.

Lemma div_nan_r (x : float) : x / nan = nan.
Proof.
  apply Prim2SF_inj. rewrite div_spec.
  change (Prim2SF nan) with S754_nan. destruct (Prim2SF x); reflexivity.
Qed.

Lemma SFcompare_refl (x : spec_float) :
  x <> S754_nan -> SFcompare x x = Some Eq.
Proof.
  destruct x as [s|s| |s m e]; simpl; try congruence.
  - destruct s; reflexivity.
  - intros _. rewrite Z.compare_refl.
    destruct (compare_cont_Eq_spec m m) as [_|H|H]; try lia.
    destruct s; reflexivity.
Qed.

Lemma is_nan_Prim2SF (x : float) :
  is_nan x = true <-> Prim2SF x = S754_nan.
Proof.
  unfold is_nan. rewrite FloatAxioms.eqb_spec. unfold SFeqb. split.
  - intros H. destruct (Prim2SF x) eqn:E; try reflexivity;
      rewrite SFcompare_refl in H by discriminate; discriminate H.
  - intros ->. reflexivity.
Qed.

(** Two numbers, neither NaN, are comparable. *)
Lemma leb_total (x y : float) :
  is_nan x = false -> is_nan y = false -> (x <=? y) = negb (y <? x).
Proof.
  intros Hx Hy. rewrite leb_spec, ltb_spec. unfold SFleb, SFltb.
  rewrite (SFcompare_antisym (Prim2SF x) (Prim2SF y)).
  assert (Hnx : Prim2SF x <> S754_nan)
    by (intros E; apply is_nan_Prim2SF in E; congruence).
  assert (Hny : Prim2SF y <> S754_nan)
    by (intros E; apply is_nan_Prim2SF in E; congruence).
  destruct (Prim2SF x) as [sx|sx| |sx mx ex], (Prim2SF y) as [sy|sy| |sy my ey];
    try congruence; simpl;
    repeat match goal with s : bool |- _ => destruct s end; simpl; try reflexivity;
    destruct (ex ?= ey)%Z; simpl; try reflexivity;
    destruct (PosDef.Pos.compare_cont Eq mx my); reflexivity.
Qed.

Lemma nan_not_compared (x y : float) :
  is_nan x = true -> (x <? y) = false /\ (y <? x) = false
                     /\ (x <=? y) = false /\ (y <=? x) = false.
Proof.
  intros H. apply is_nan_Prim2SF in H.
  rewrite !ltb_spec, !leb_spec, H. unfold SFltb, SFleb. simpl.
  destruct (Prim2SF y); auto.
Qed.



End FloatFacts.

(** ** Decimal digits and [toFixed] *)

Section Digits.

Lemma append_cons (x : ascii) (a b : string) :
  String x a +:+ b = String x (a +:+ b).
Proof. reflexivity. Qed.

Lemma append_assoc' (a b c : string) : (a +:+ b) +:+ c = a +:+ (b +:+ c).
Proof.
  induction a as [|x a IH]; [reflexivity|].
  rewrite !append_cons, IH. reflexivity.
Qed.

Lemma length_append' (a b : string) :
  String.length (a +:+ b) = (String.length a + String.length b)%nat.
Proof.
  induction a as [|x a IH]; [reflexivity|].
  rewrite append_cons. simpl. rewrite IH. reflexivity.
Qed.

Lemma substring_all (b : string) : substring 0 (String.length b) b = b.
Proof. induction b as [|x b IH]; simpl; [reflexivity | rewrite IH; reflexivity]. Qed.

Lemma substring_prefix (a b : string) :
  substring 0 (String.length a) (a +:+ b) = a.
Proof.
  induction a as [|x a IH].
  - destruct b; reflexivity.
  - rewrite append_cons. simpl. rewrite IH. reflexivity.
Qed.

Lemma substring_suffix (a b : string) :
  substring (String.length a) (String.length b) (a +:+ b) = b.
Proof.
  induction a as [|x a IH]; [apply substring_all|].
  rewrite append_cons. simpl. exact IH.
Qed.

Lemma digitsAux_S (fuel : nat) (n : Z) (acc : string) :
  digitsAux (S fuel) n acc =
    if n <? 10 then String (digitChar (n mod 10)) acc
    else digitsAux fuel (n / 10) (String (digitChar (n mod 10)) acc).
Proof. reflexivity. Qed.

Lemma digitsAux_app (fuel : nat) : forall (n : Z) (acc : string),
  digitsAux fuel n acc = digitsAux fuel n "" +:+ acc.
Proof.
  induction fuel as [|fuel IH]; intros n acc; simpl; [reflexivity|].
  destruct (n <? 10); [reflexivity|].
  rewrite (IH (n / 10) (String _ acc)), (IH (n / 10) (String _ "")).
  rewrite append_assoc'. reflexivity.
Qed.

Lemma digitsAux_fuel (f1 : nat) : forall (f2 : nat) (n : Z) (acc : string),
  0 <= n < 2 ^ Z.of_nat f1 -> n < 2 ^ Z.of_nat f2 ->
  (1 <= f1)%nat -> (1 <= f2)%nat ->
  digitsAux f1 n acc = digitsAux f2 n acc.
Proof.
  induction f1 as [|f1 IH]; intros f2 n acc Hn1 Hn2 Hf1 Hf2; [lia|].
  destruct f2 as [|f2]; [lia|]. simpl.
  destruct (Z.ltb_spec n 10) as [Hlt|Hge]; [reflexivity|].
  rewrite !Nat2Z.inj_succ, !Z.pow_succ_r in * by lia.
  assert (Hq : 1 <= n / 10) by (apply Z.div_le_lower_bound; lia).
  assert (Hq' : n / 10 <= n / 2) by (apply Z.div_le_compat_l; lia).
  assert (Hh1 : n / 2 < 2 ^ Z.of_nat f1) by (apply Z.div_lt_upper_bound; lia).
  assert (Hh2 : n / 2 < 2 ^ Z.of_nat f2) by (apply Z.div_lt_upper_bound; lia).
  apply IH; try lia.
  - destruct f1; [simpl in Hh1; lia | lia].
  - destruct f2; [simpl in Hh2; lia | lia].
Qed.

Lemma decimalDigits_fuel (fuel : nat) (n : Z) :
  0 <= n < 2 ^ Z.of_nat fuel -> (1 <= fuel)%nat ->
  decimalDigits n = digitsAux fuel n "".
Proof.
  intros Hn Hf. unfold decimalDigits. apply digitsAux_fuel; try lia.
  destruct (Z.eq_dec n 0) as [->|Hnz]; [simpl; lia|].
  rewrite Nat2Z.inj_succ, Z2Nat.id by apply Z.log2_nonneg.
  split; [lia|]. apply Z.log2_spec. lia.
Qed.

Lemma decimalDigits_small (n : Z) :
  0 <= n < 10 -> decimalDigits n = String (digitChar n) "".
Proof.
  intros Hn. rewrite (decimalDigits_fuel 4 n) by (simpl; lia). simpl.
  rewrite Z.mod_small by lia.
  destruct (Z.ltb_spec n 10); [reflexivity | lia].
Qed.

Lemma decimalDigits_step (n : Z) :
  10 <= n ->
  decimalDigits n = decimalDigits (n / 10) +:+ String (digitChar (n mod 10)) "".
Proof.
  intros Hn.
  set (f := S (Z.to_nat (Z.log2 n))).
  assert (Hf : 0 <= n < 2 ^ Z.of_nat f).
  { unfold f. rewrite Nat2Z.inj_succ, Z2Nat.id by apply Z.log2_nonneg.
    split; [lia|]. apply Z.log2_spec. lia. }
  rewrite (decimalDigits_fuel (S f) n).
  2:{ rewrite Nat2Z.inj_succ, Z.pow_succ_r by lia. lia. }
  2:{ lia. }
  rewrite digitsAux_S. destruct (Z.ltb_spec n 10) as [Hlt|_]; [lia|].
  rewrite digitsAux_app. f_equal. symmetry. apply decimalDigits_fuel.
  - split; [apply Z.div_pos; lia|].
    apply Z.div_lt_upper_bound; lia.
  - unfold f. lia.
Qed.

Lemma decimalDigits_length (n : Z) : (1 <= String.length (decimalDigits n))%nat.
Proof.
  unfold decimalDigits. rewrite digitsAux_S.
  destruct (n <? 10); [simpl; lia|].
  rewrite digitsAux_app, length_append'. simpl. lia.
Qed.


Lemma withPoint_app (a b : string) :
  (1 <= String.length a)%nat -> (1 <= String.length b)%nat ->
  withPoint (a +:+ b) (String.length b) = a +:+ String "." b.
Proof.
  intros Ha Hb. unfold withPoint. rewrite length_append'.
  destruct (Nat.leb_spec (String.length a + String.length b) (String.length b))
    as [Hle|_]; [lia|].
  cbv zeta. rewrite length_append'.
  replace (String.length a + String.length b - String.length b)%nat
    with (String.length a) by lia.
  rewrite substring_prefix, substring_suffix. reflexivity.
Qed.

(** The digits with a point before the last two. *)
Lemma fixedDigits_2 (n : Z) :
  0 <= n ->
  fixedDigits n 2 =
    decimalDigits (n / 100)
    +:+ String "." (String (digitChar (n / 10 mod 10))
                      (String (digitChar (n mod 10)) "")).
Proof.
  intros Hn. unfold fixedDigits.
  destruct (Z.lt_ge_cases n 10) as [H10|H10].
  - rewrite (decimalDigits_small n) by lia.
    rewrite (Z.div_small n 100), (Z.div_small n 10), (Z.mod_small n 10) by lia.
    reflexivity.
  - rewrite (decimalDigits_step n H10).
    assert (Hq : n / 10 / 10 = n / 100) by (rewrite Z.div_div by lia; reflexivity).
    destruct (Z.lt_ge_cases n 100) as [H100|H100].
    + assert (0 <= n / 10 < 10).
      { split; [apply Z.div_pos; lia | apply Z.div_lt_upper_bound; lia]. }
      rewrite (decimalDigits_small (n / 10)) by lia.
      rewrite (Z.div_small n 100), (Z.mod_small (n / 10) 10) by lia.
      reflexivity.
    + assert (10 <= n / 10) by (apply Z.div_le_lower_bound; lia).
      rewrite (decimalDigits_step (n / 10)) by lia.
      rewrite Hq, append_assoc'.
      apply (withPoint_app (decimalDigits (n / 100))
               (String (digitChar (n / 10 mod 10)) (String (digitChar (n mod 10)) ""))).
      * apply decimalDigits_length.
      * simpl. lia.
Qed.

End Digits.

Section Rounding.

Lemma nearestScaled_nonneg (m : positive) (e : Z) :
  0 <= nearestScaled (Z.pos m) e 2.
Proof.
  unfold nearestScaled. destruct (Z.leb_spec 0 e).
  - assert (0 < 2 ^ e) by (apply Z.pow_pos_nonneg; lia). nia.
  - assert (0 < 2 ^ (- e)) by (apply Z.pow_pos_nonneg; lia).
    apply Z.div_pos; nia.
Qed.

Lemma nearestScaled_nearest (m : positive) (e : Z) :
  Spec.nearestHundredths m e (nearestScaled (Z.pos m) e 2).
Proof.
  unfold Spec.nearestHundredths, nearestScaled.
  change (10 ^ Z.of_nat 2) with 100.
  destruct (Z.leb_spec 0 e) as [He|He]; [lia|].
  assert (Hd : 0 < 2 ^ (- e)) by (apply Z.pow_pos_nonneg; lia).
  set (d := 2 ^ (- e)) in *.
  pose proof (Z.div_mod (2 * (Z.pos m * 100) + d) (2 * d) ltac:(lia)) as Hdm.
  pose proof (Z.mod_pos_bound (2 * (Z.pos m * 100) + d) (2 * d) ltac:(lia)) as Hr.
  set (q := (2 * (Z.pos m * 100) + d) / (2 * d)) in *.
  nia.
Qed.

(** [toFixed] with two digits rounds to two decimals. *)
Lemma toFixed_2_rounded (v : Number) :
  Spec.fixedPointRange v -> Spec.roundedTo2 v (toFixed v 2).
Proof.
  unfold Spec.fixedPointRange, Spec.roundedTo2, toFixed.
  destruct (Prim2SF v) as [s|s| |neg m e]; try contradiction.
  - intros _. reflexivity.
  - intros Hrange.
    assert (Hsmall : (0 <=? e) && (10 ^ 21 <=? Z.pos m * 2 ^ e) = false).
    { destruct (Z.leb_spec 0 e); [|reflexivity]. simpl.
      apply Z.leb_gt. lia. }
    rewrite Hsmall.
    exists (nearestScaled (Z.pos m) e 2).
    split; [apply nearestScaled_nonneg | split; [apply nearestScaled_nearest|]].
    rewrite fixedDigits_2 by apply nearestScaled_nonneg. reflexivity.
Qed.

End Rounding.

(** ** The likelihood-ratio table *)

Section Table.
Local Open Scope float_scope.

(** C5.  The table holds the published coefficients: the nine gestational
    age ratios (1.4 at 42 weeks and more, 2.3 at 34 6/7 weeks and less), the
    two temperature ratios 0.4 and 3.7, the four ROM ratios from 0.6 under
    12 hours to 2.1 over 24 hours, the GBS ratios 2.0, 0.4 and 1.0, and the
    IAP ratios 0.2, 0.4, 0.9 and 1.0, with 1.0 for both [inadequate_or_no]
    and [no_iap_needed]; and each sub-table has exactly the keys that its
    select offers. *)
Theorem likelihood_ratios_published :
  (LIKELIHOOD_RATIOS.gestationalAge !! "≥42" = Some 1.4
   /\ LIKELIHOOD_RATIOS.gestationalAge !! "41 0/7-41 6/7" = Some 1.1
   /\ LIKELIHOOD_RATIOS.gestationalAge !! "40 0/7-40 6/7" = Some 0.8
   /\ LIKELIHOOD_RATIOS.gestationalAge !! "39 0/7-39 6/7" = Some 0.6
   /\ LIKELIHOOD_RATIOS.gestationalAge !! "38 0/7-38 6/7" = Some 0.5
   /\ LIKELIHOOD_RATIOS.gestationalAge !! "37 0/7-37 6/7" = Some 0.4
   /\ LIKELIHOOD_RATIOS.gestationalAge !! "36 0/7-36 6/7" = Some 0.7
   /\ LIKELIHOOD_RATIOS.gestationalAge !! "35 0/7-35 6/7" = Some 1.3
   /\ LIKELIHOOD_RATIOS.gestationalAge !! "≤34 6/7" = Some 2.3)
  /\ (LIKELIHOOD_RATIOS.highestTemp !! "<38" = Some 0.4
      /\ LIKELIHOOD_RATIOS.highestTemp !! "≥38" = Some 3.7)
  /\ (LIKELIHOOD_RATIOS.rom !! "<12" = Some 0.6
      /\ LIKELIHOOD_RATIOS.rom !! "12-18" = Some 1.3
      /\ LIKELIHOOD_RATIOS.rom !! "18-24" = Some 1.7
      /\ LIKELIHOOD_RATIOS.rom !! ">24" = Some 2.1)
  /\ (LIKELIHOOD_RATIOS.gbsStatus !! "positive" = Some 2.0
      /\ LIKELIHOOD_RATIOS.gbsStatus !! "negative" = Some 0.4
      /\ LIKELIHOOD_RATIOS.gbsStatus !! "unknown" = Some 1.0)
  /\ (LIKELIHOOD_RATIOS.iap !! "adequate_pen_amp" = Some 0.2
      /\ LIKELIHOOD_RATIOS.iap !! "adequate_cefazolin" = Some 0.4
      /\ LIKELIHOOD_RATIOS.iap !! "adequate_clinda_vanco" = Some 0.9
      /\ LIKELIHOOD_RATIOS.iap !! "inadequate_or_no" = Some 1.0
      /\ LIKELIHOOD_RATIOS.iap !! "no_iap_needed" = Some 1.0)
  /\ (dom LIKELIHOOD_RATIOS.gestationalAge = list_to_set gestationalAgeOptions
      /\ dom LIKELIHOOD_RATIOS.highestTemp = list_to_set highestTempOptions
      /\ dom LIKELIHOOD_RATIOS.rom = list_to_set romOptions
      /\ dom LIKELIHOOD_RATIOS.gbsStatus = list_to_set gbsStatusOptions
      /\ dom LIKELIHOOD_RATIOS.iap = list_to_set iapOptions).
Proof.
  repeat split; try (vm_compute; reflexivity).
Qed.

End Table.

(** ** The risk calculation *)

Section Risk.
Local Open Scope float_scope.

(** The guard of [sepsisRisk], and what the calculation is past it. *)
Lemma sepsisRisk_guarded (inc ga t r b a : string) :
  isNaN (parseFloat inc) || (parseFloat inc <=? 0) = true ->
  sepsisRisk inc ga t r b a = "0.00"%string.
Proof. unfold sepsisRisk. intros ->. reflexivity. Qed.

Lemma sepsisRisk_computed (inc ga t r b a : string) :
  isNaN (parseFloat inc) || (parseFloat inc <=? 0) = false ->
  sepsisRisk inc ga t r b a =
    let n := parseFloat inc in
    let posteriorOdds :=
      n / (1000 - n)
      * (ToNumber (LIKELIHOOD_RATIOS.gestationalAge !! ga)
         * ToNumber (LIKELIHOOD_RATIOS.highestTemp !! t)
         * ToNumber (LIKELIHOOD_RATIOS.rom !! r)
         * ToNumber (LIKELIHOOD_RATIOS.gbsStatus !! b)
         * ToNumber (lrIap b a)) in
    toFixed (posteriorOdds / (1 + posteriorOdds) * 1000) 2.
Proof. unfold sepsisRisk. intros ->. reflexivity. Qed.

Lemma sepsisRisk_unrounded (inc ga t r b a : string) :
  isNaN (parseFloat inc) || (parseFloat inc <=? 0) = false ->
  sepsisRisk inc ga t r b a = toFixed (unroundedRisk inc ga t r b a) 2.
Proof. intros H. rewrite (sepsisRisk_computed _ _ _ _ _ _ H). reflexivity. Qed.

Lemma eqb_neq_false (s1 s2 : string) : s1 <> s2 -> String.eqb s1 s2 = false.
Proof. apply String.eqb_neq. Qed.

(** C4.  IAP suppression: when the GBS status is not
    [positive], the risk is the one computed with [iap = no_iap_needed],
    whatever the IAP code and the other inputs.  The effective IAP ratio is
    1.0 whenever [iap = no_iap_needed] or the GBS status is not [positive],
    and the table's value for the IAP code otherwise; so it is 1.0 in those
    cases and also when the table's value is 1.0, as it is for
    [inadequate_or_no]. *)
Theorem iap_suppression (inc ga t r b a : string) :
  (b <> "positive"%string ->
   sepsisRisk inc ga t r b a = sepsisRisk inc ga t r b "no_iap_needed")
  /\ (a = "no_iap_needed"%string \/ b <> "positive"%string ->
      lrIap b a = Some 1.0)
  /\ (a <> "no_iap_needed"%string -> b = "positive"%string ->
      lrIap b a = LIKELIHOOD_RATIOS.iap !! a)
  /\ (lrIap b a = Some 1.0 <->
      a = "no_iap_needed"%string \/ b <> "positive"%string
      \/ LIKELIHOOD_RATIOS.iap !! a = Some 1.0).
Proof.
  assert (Hsup : b <> "positive"%string -> forall a', lrIap b a' = Some 1.0).
  { intros Hb a'. unfold lrIap. rewrite (eqb_neq_false _ _ Hb).
    rewrite orb_true_r. reflexivity. }
  assert (Hnone : a = "no_iap_needed"%string -> lrIap b a = Some 1.0)
    by (intros ->; reflexivity).
  assert (Hact : a <> "no_iap_needed"%string -> b = "positive"%string ->
                 lrIap b a = LIKELIHOOD_RATIOS.iap !! a).
  { intros Ha ->. unfold lrIap. rewrite (eqb_neq_false _ _ Ha). reflexivity. }
  split; [|split; [|split; [exact Hact|]]].
  - intros Hb. unfold sepsisRisk. rewrite !(Hsup Hb). reflexivity.
  - intros [Ha | Hb]; [apply (Hnone Ha) | apply (Hsup Hb)].
  - destruct (String.eqb_spec a "no_iap_needed") as [Ha|Ha];
      [split; [auto | intros _; apply (Hnone Ha)]|].
    destruct (String.eqb_spec b "positive") as [Hb|Hb];
      [|split; [auto | intros _; apply (Hsup Hb)]].
    rewrite (Hact Ha Hb). split; [auto | intros [?|[?|?]]; [tauto | tauto | assumption]].
Qed.

Lemma iap_suppression_witness :
  sepsisRisk "0.5" "≥42" "<38" "<12" "unknown" "adequate_pen_amp"
  = sepsisRisk "0.5" "≥42" "<38" "<12" "unknown" "no_iap_needed"
  /\ lrIap "negative" "adequate_cefazolin" = Some 1.0
  /\ lrIap "positive" "adequate_cefazolin" = Some 0.4.
Proof.
  split; [|split].
  - apply (proj1 (iap_suppression "0.5" "≥42" "<38" "<12" "unknown" "adequate_pen_amp")).
    discriminate.
  - apply (proj1 (proj2 (iap_suppression "" "" "" "" "negative" "adequate_cefazolin"))).
    right. discriminate.
  - rewrite (proj1 (proj2 (proj2
               (iap_suppression "" "" "" "" "positive" "adequate_cefazolin"))));
      [reflexivity | discriminate | reflexivity].
Defined.

(** The ratio 1.0 alone does not tell that the IAP is suppressed: with a
    positive GBS status and the IAP code [inadequate_or_no], which is not
    [no_iap_needed], the effective IAP ratio is the table's value, and that
    is 1.0 too. *)
Lemma iap_ratio_one_when_not_suppressed :
  ~ (forall b a : string,
       lrIap b a = Some 1.0 <->
       a = "no_iap_needed"%string \/ b <> "positive"%string).
Proof.
  intros H.
  destruct (proj1 (H "positive" "inadequate_or_no")%string eq_refl) as [Ha | Hb].
  - discriminate Ha.
  - apply Hb. reflexivity.
Qed.

(** C3, as the code has it.  [sepsisRisk] returns "0.00" whenever the
    parsed incidence is NaN or at most 0, whatever the five codes are (they
    are not looked up): that covers 0, -1, NaN, text that is not a number,
    and minus infinity. *)
Theorem zero_fallback (inc ga t r b a : string) :
  (isNaN (parseFloat inc) = true \/ (parseFloat inc <=? 0) = true ->
   sepsisRisk inc ga t r b a = "0.00"%string)
  /\ Forall (fun s => isNaN (parseFloat s) = true \/ (parseFloat s <=? 0) = true)
       ["0"; "-1"; "NaN"; "abc"; ""; "-Infinity"; "0.0"; "-0.5"]%string.
Proof.
  split.
  - intros H. apply sepsisRisk_guarded. destruct H as [-> | ->];
      [reflexivity | apply orb_true_r].
  - repeat match goal with
           | |- Forall _ (_ :: _) => constructor; [vm_compute; auto |]
           end.
    constructor.
Qed.

Lemma zero_fallback_witness :
  sepsisRisk "-1" "≥42" "no such code" "<12" "positive" "inadequate_or_no"
  = "0.00"%string.
Proof.
  apply (proj1 (zero_fallback "-1" "≥42" "no such code" "<12" "positive"
                  "inadequate_or_no")).
  right. vm_compute. reflexivity.
Defined.

(** C3, as stated, fails: plus infinity is not a finite positive number,
    and the risk computed for it is "NaN", not "0.00". *)
Lemma zero_fallback_not_for_infinity :
  ~ (forall inc ga t r b a : string,
       is_finite (parseFloat inc) && (0 <? parseFloat inc) = false ->
       sepsisRisk inc ga t r b a = "0.00"%string).
Proof.
  intros H.
  specialize (H "Infinity" "≥42" "<38" "<12" "negative" "no_iap_needed" eq_refl)%string.
  vm_compute in H. discriminate H.
Qed.

End Risk.

(** ** The algorithm of the specification *)

Section Algorithm.
Local Open Scope float_scope.

Lemma enumerated_lookups :
  Forall (fun k => is_Some (LIKELIHOOD_RATIOS.gestationalAge !! k)) gestationalAgeOptions
  /\ Forall (fun k => is_Some (LIKELIHOOD_RATIOS.highestTemp !! k)) highestTempOptions
  /\ Forall (fun k => is_Some (LIKELIHOOD_RATIOS.rom !! k)) romOptions
  /\ Forall (fun k => is_Some (LIKELIHOOD_RATIOS.gbsStatus !! k)) gbsStatusOptions
  /\ Forall (fun k => is_Some (LIKELIHOOD_RATIOS.iap !! k)) iapOptions
  /\ Forall (fun b => Forall (fun a => is_Some (lrIap b a)) iapOptions) gbsStatusOptions.
Proof.
  unfold gestationalAgeOptions, highestTempOptions, romOptions,
    gbsStatusOptions, iapOptions.
  repeat split;
    repeat match goal with
           | |- Forall _ (_ :: _) => constructor
           | |- Forall _ [] => constructor
           | |- is_Some _ => vm_compute; eexists; reflexivity
           | |- _ => progress cbv beta
           end.
Qed.

Lemma finitePositive_guard (n : Number) :
  Spec.finitePositive n = true -> isNaN n || (n <=? 0) = false.
Proof.
  unfold Spec.finitePositive, isNaN, is_finite.
  intros H. apply andb_true_iff in H as [Hfin Hpos].
  apply negb_true_iff, orb_false_iff in Hfin as [-> _].
  rewrite (ltb_not_ge _ _ Hpos). reflexivity.
Qed.

Lemma effectiveIapLR_lrIap (b a : string) : Spec.effectiveIapLR b a = lrIap b a.
Proof.
  unfold Spec.effectiveIapLR, lrIap.
  destruct (String.eqb_spec a "no_iap_needed") as [Ha|Ha],
           (String.eqb_spec b "positive") as [Hb|Hb];
    destruct (decide _) as [Hd|Hd]; simpl; try reflexivity; tauto.
Qed.

(** C1, as the code has it.  For a finite positive incidence and enumerated
    codes, the five ratios are read from the table (the IAP one replaced by
    1.0 unless the GBS status is positive and an IAP code other than
    [no_iap_needed] is chosen), and the risk is the posterior probability per
    1000 of the specification's steps 2 to 7 (prior odds
    [incidence / (1000 - incidence)], times the product of the five ratios,
    turned back into a probability), printed by [toFixed(2)]: that is the
    value rounded to exactly two decimals in fixed-point notation whenever it
    is finite and below 10^21. *)
Theorem risk_follows_algorithm (inc ga t r b a : string) :
  Spec.finitePositive (parseFloat inc) = true ->
  ga ∈ gestationalAgeOptions -> t ∈ highestTempOptions -> r ∈ romOptions ->
  b ∈ gbsStatusOptions -> a ∈ iapOptions ->
  exists lrGestationalAge lrTemperature lrRom lrGbs lrIapEffective : Number,
    LIKELIHOOD_RATIOS.gestationalAge !! ga = Some lrGestationalAge
    /\ LIKELIHOOD_RATIOS.highestTemp !! t = Some lrTemperature
    /\ LIKELIHOOD_RATIOS.rom !! r = Some lrRom
    /\ LIKELIHOOD_RATIOS.gbsStatus !! b = Some lrGbs
    /\ Spec.effectiveIapLR b a = Some lrIapEffective
    /\ let v := Spec.posteriorPer1000 (parseFloat inc) lrGestationalAge
                  lrTemperature lrRom lrGbs lrIapEffective in
       sepsisRisk inc ga t r b a = toFixed v 2
       /\ (Spec.fixedPointRange v -> Spec.roundedTo2 v (sepsisRisk inc ga t r b a)).
Proof.
  intros Hinc Hga Ht Hr Hb Ha.
  destruct enumerated_lookups as (Fga & Ft & Fr & Fb & _ & Fa).
  destruct (proj1 (Forall_forall _ _) Fga ga Hga) as [lg Hlg].
  destruct (proj1 (Forall_forall _ _) Ft t Ht) as [lt Hlt].
  destruct (proj1 (Forall_forall _ _) Fr r Hr) as [lr Hlr].
  destruct (proj1 (Forall_forall _ _) Fb b Hb) as [lb Hlb].
  destruct (proj1 (Forall_forall _ _)
              (proj1 (Forall_forall _ _) Fa b Hb) a Ha) as [li Hli].
  exists lg, lt, lr, lb, li.
  rewrite effectiveIapLR_lrIap.
  repeat (split; [assumption|]).
  cbv zeta.
  assert (Heq : sepsisRisk inc ga t r b a
                = toFixed (Spec.posteriorPer1000 (parseFloat inc) lg lt lr lb li) 2).
  { rewrite (sepsisRisk_computed _ _ _ _ _ _ (finitePositive_guard _ Hinc)).
    rewrite Hlg, Hlt, Hlr, Hlb, Hli. reflexivity. }
  split; [exact Heq|].
  intros Hrange. rewrite Heq. apply toFixed_2_rounded, Hrange.
Qed.

Lemma risk_follows_algorithm_witness :
  exists lrGestationalAge lrTemperature lrRom lrGbs lrIapEffective : Number,
    LIKELIHOOD_RATIOS.gestationalAge !! "≤34 6/7" = Some lrGestationalAge
    /\ LIKELIHOOD_RATIOS.highestTemp !! "≥38" = Some lrTemperature
    /\ LIKELIHOOD_RATIOS.rom !! ">24" = Some lrRom
    /\ LIKELIHOOD_RATIOS.gbsStatus !! "positive" = Some lrGbs
    /\ Spec.effectiveIapLR "positive" "adequate_pen_amp" = Some lrIapEffective
    /\ let v := Spec.posteriorPer1000 (parseFloat "0.5") lrGestationalAge
                  lrTemperature lrRom lrGbs lrIapEffective in
       sepsisRisk "0.5" "≤34 6/7" "≥38" ">24" "positive" "adequate_pen_amp" = toFixed v 2
       /\ (Spec.fixedPointRange v ->
           Spec.roundedTo2 v
             (sepsisRisk "0.5" "≤34 6/7" "≥38" ">24" "positive" "adequate_pen_amp")).
Proof.
  apply (risk_follows_algorithm
           "0.5" "≤34 6/7" "≥38" ">24" "positive" "adequate_pen_amp");
    by_evaluation.
Defined.

(** C1, as stated, fails at the incidence 1000, a finite positive number:
    the prior odds are infinite, the posterior probability is NaN, and the
    risk is the string "NaN", which is no rounding to two decimals. *)
Lemma risk_at_1000_not_rounded :
  ~ (forall inc ga t r b a : string,
       Spec.finitePositive (parseFloat inc) = true ->
       ga ∈ gestationalAgeOptions -> t ∈ highestTempOptions -> r ∈ romOptions ->
       b ∈ gbsStatusOptions -> a ∈ iapOptions ->
       exists lrGestationalAge lrTemperature lrRom lrGbs lrIapEffective : Number,
         LIKELIHOOD_RATIOS.gestationalAge !! ga = Some lrGestationalAge
         /\ LIKELIHOOD_RATIOS.highestTemp !! t = Some lrTemperature
         /\ LIKELIHOOD_RATIOS.rom !! r = Some lrRom
         /\ LIKELIHOOD_RATIOS.gbsStatus !! b = Some lrGbs
         /\ Spec.effectiveIapLR b a = Some lrIapEffective
         /\ Spec.roundedTo2
              (Spec.posteriorPer1000 (parseFloat inc) lrGestationalAge
                 lrTemperature lrRom lrGbs lrIapEffective)
              (sepsisRisk inc ga t r b a)).
Proof.
  intros H.
  destruct (H "1000" "≥42" "<38" "<12" "negative" "no_iap_needed")%string
    as (lg & lt & lr & lb & li & Hlg & Hlt & Hlr & Hlb & Hli & Hround);
    [reflexivity | by_evaluation .. |].
  vm_compute in Hlg, Hlt, Hlr, Hlb, Hli.
  injection Hlg as <-. injection Hlt as <-. injection Hlr as <-.
  injection Hlb as <-. injection Hli as <-.
  vm_compute in Hround. exact Hround.
Qed.


(** The end-to-end scenario of the specification. *)
Example end_to_end :
  sepsisRisk "0.5" "≤34 6/7" "≥38" ">24" "positive" "adequate_pen_amp" = "3.56"%string
  /\ text (recommendation "3.56") = "Empiric Antibiotics Recommended"%string
  /\ Spec.fixedPointRange
       (Spec.posteriorPer1000 (parseFloat "0.5") 2.3 3.7 2.1 2.0 0.2).
Proof. repeat split; vm_compute; auto. Qed.

End Algorithm.

(** ** The recommendation *)

Section Classify.
Local Open Scope float_scope.

(** C2.  The recommendation is "Empiric Antibiotics Recommended" above
    1.18, "Enhanced Vital Signs" from 0.65 to 1.18, both included, and
    "Routine Care" below 0.65; so 0.65 and 1.18 give "Enhanced Vital
    Signs", 0.6499 gives "Routine Care" and 1.1801 gives "Empiric
    Antibiotics Recommended"; the same holds of the risk strings "0.65" and
    "1.18" and of their neighbours "0.64" and "1.19". *)
Theorem classify_thresholds (risk : Number) :
  ((1.18 <? risk) = true ->
   text (classify risk) = "Empiric Antibiotics Recommended"%string)
  /\ ((0.65 <=? risk) = true -> (risk <=? 1.18) = true ->
      text (classify risk) = "Enhanced Vital Signs"%string)
  /\ ((risk <? 0.65) = true ->
      text (classify risk) = "Routine Care"%string)
  /\ text (classify 0.65) = "Enhanced Vital Signs"%string
  /\ text (classify 1.18) = "Enhanced Vital Signs"%string
  /\ text (classify 0.6499) = "Routine Care"%string
  /\ text (classify 1.1801) = "Empiric Antibiotics Recommended"%string
  /\ text (recommendation "0.65") = "Enhanced Vital Signs"%string
  /\ text (recommendation "1.18") = "Enhanced Vital Signs"%string
  /\ text (recommendation "0.64") = "Routine Care"%string
  /\ text (recommendation "1.19") = "Empiric Antibiotics Recommended"%string.
Proof.
  unfold classify. repeat split; try reflexivity.
  - intros ->. reflexivity.
  - intros Hlo Hhi. rewrite (leb_not_gt _ _ Hhi), Hlo, Hhi. reflexivity.
  - intros Hlt.
    assert (Hgt : (1.18 <? risk) = false).
    { destruct (1.18 <? risk) eqn:E; [|reflexivity].
      pose proof (ltb_trans _ _ _ E Hlt) as Habs. vm_compute in Habs.
      discriminate Habs. }
    rewrite Hgt, (ltb_not_ge _ _ Hlt). reflexivity.
Qed.

Lemma classify_thresholds_witness :
  text (classify 3.56) = "Empiric Antibiotics Recommended"%string
  /\ text (classify 0.9) = "Enhanced Vital Signs"%string
  /\ text (classify 0.07) = "Routine Care"%string.
Proof.
  split; [|split].
  - apply (proj1 (classify_thresholds 3.56)). reflexivity.
  - apply (proj1 (proj2 (classify_thresholds 0.9))); reflexivity.
  - apply (proj1 (proj2 (proj2 (classify_thresholds 0.07)))). reflexivity.
Defined.

End Classify.

(** ** The form: GBS status and IAP *)

Section Form.

Lemma setIap_gbsStatus (v : string) (st : FormState) :
  gbsStatus (setIap v st) = gbsStatus st.
Proof. reflexivity. Qed.

Lemma gbsEffect_gbsStatus (st : FormState) :
  gbsStatus (gbsEffect st) = gbsStatus st.
Proof. unfold gbsEffect. destruct (negb _); reflexivity. Qed.

Lemma runEffects_gbsStatus (prev next : FormState) :
  gbsStatus (runEffects prev next) = gbsStatus next.
Proof.
  unfold runEffects. destruct (String.eqb _ _);
    [reflexivity | apply gbsEffect_gbsStatus].
Qed.

Lemma gbsEffect_resets (st : FormState) :
  gbsStatus st <> "positive" -> iap (gbsEffect st) = "no_iap_needed".
Proof.
  intros H. unfold gbsEffect. rewrite (proj2 (String.eqb_neq _ _) H).
  reflexivity.
Qed.

(** A step that changes the GBS status to a value other than [positive]
    leaves [iap = no_iap_needed]. *)
Lemma step_resets_iap (st : FormState) (ev : Event) :
  gbsStatus (step st ev) <> gbsStatus st ->
  gbsStatus (step st ev) <> "positive" ->
  iap (step st ev) = "no_iap_needed".
Proof.
  unfold step. rewrite runEffects_gbsStatus. intros Hchg Hnp.
  unfold runEffects.
  rewrite (proj2 (String.eqb_neq _ _) (not_eq_sym Hchg)).
  apply gbsEffect_resets, Hnp.
Qed.


Lemma step_synchronised (st : FormState) (ev : Event) :
  synchronised st -> enabled st ev = true -> synchronised (step st ev).
Proof.
  intros Hst Hen Hnp.
  destruct (String.eqb_spec (gbsStatus st) (gbsStatus (step st ev))) as [Heq|Hne].
  - (* the GBS status is as before: the effect does not run *)
    revert Heq Hnp. unfold step. rewrite runEffects_gbsStatus. intros Heq Hnp.
    unfold runEffects. rewrite Heq, String.eqb_refl.
    destruct ev; simpl in *; try (apply Hst; congruence).
    + (* ChangeIap is enabled only for a positive status *)
      unfold iapDisabled in Hen. apply negb_true_iff, negb_false_iff in Hen.
      apply String.eqb_eq in Hen. congruence.
    + reflexivity.
  - apply step_resets_iap; [congruence | exact Hnp].
Qed.

(** C9.  The GBS-to-IAP rule as a transition function [step]: a step in
    which the GBS status changes to a value other than [positive] ends with
    [iap = no_iap_needed]; every settled state that the user can reach
    satisfies [gbsStatus <> positive -> iap = no_iap_needed]; and a change
    of [iap], by the user or by the effect, leaves the GBS status as it
    is. *)
Theorem gbs_iap_rule :
  (forall st ev,
      gbsStatus (step st ev) <> gbsStatus st ->
      gbsStatus (step st ev) <> "positive" ->
      iap (step st ev) = "no_iap_needed")
  /\ (forall st, reachable st ->
        gbsStatus st <> "positive" -> iap st = "no_iap_needed")
  /\ (forall st v,
        gbsStatus (step st (ChangeIap v)) = gbsStatus st
        /\ gbsStatus (setIap v st) = gbsStatus st
        /\ gbsStatus (gbsEffect st) = gbsStatus st).
Proof.
  split; [exact step_resets_iap | split].
  - intros st Hreach. change (synchronised st).
    induction Hreach as [|st ev _ IH Hen].
    + intros _. reflexivity.
    + apply step_synchronised; assumption.
  - intros st v. split; [|split].
    + unfold step. rewrite runEffects_gbsStatus. reflexivity.
    + reflexivity.
    + apply gbsEffect_gbsStatus.
Qed.


Lemma gbs_iap_rule_witness :
  iap exampleRun = "adequate_pen_amp"
  /\ iap (step exampleRun (ChangeGbsStatus "unknown")) = "no_iap_needed"
  /\ iap (step exampleRun ClickReset) = "no_iap_needed".
Proof.
  split; [reflexivity | split].
  - apply (proj1 gbs_iap_rule exampleRun (ChangeGbsStatus "unknown"));
      vm_compute; discriminate.
  - apply (proj1 (proj2 gbs_iap_rule) (step exampleRun ClickReset)).
    + repeat (apply reachable_step; [|reflexivity]). apply reachable_mounted.
    + vm_compute. discriminate.
Defined.

End Form.

(** ** The inputs that the selects offer *)

Section Enumerated.
Local Open Scope float_scope.


Lemma forallb_elem_of {A} (f : A -> bool) (l : list A) (x : A) :
  forallb f l = true -> x ∈ l -> f x = true.
Proof.
  intros H Hx. apply (proj1 (forallb_forall f l) H), list_elem_of_In, Hx.
Qed.

Lemma forCodes_elem_of P ga t r b a :
  forCodes P = true ->
  ga ∈ gestationalAgeOptions -> t ∈ highestTempOptions -> r ∈ romOptions ->
  b ∈ gbsStatusOptions -> a ∈ iapOptions ->
  P ga t r b a = true.
Proof.
  unfold forCodes. intros H Hga Ht Hr Hb Ha.
  pose proof (forallb_elem_of _ _ _ H Hga) as H1. cbv beta in H1.
  pose proof (forallb_elem_of _ _ _ H1 Ht) as H2. cbv beta in H2.
  pose proof (forallb_elem_of _ _ _ H2 Hr) as H3. cbv beta in H3.
  pose proof (forallb_elem_of _ _ _ H3 Hb) as H4. cbv beta in H4.
  exact (forallb_elem_of _ _ _ H4 Ha).
Qed.


(** C7.  For each of the five preset incidences and every combination of
    enumerated codes, the risk is a string of digits with exactly two
    decimals (no sign, no exponent), and the number it denotes is finite
    and not negative. *)
Theorem preset_risk_two_decimals (inc ga t r b a : string) :
  inc ∈ incidenceOptions ->
  ga ∈ gestationalAgeOptions -> t ∈ highestTempOptions -> r ∈ romOptions ->
  b ∈ gbsStatusOptions -> a ∈ iapOptions ->
  isFixed2 (sepsisRisk inc ga t r b a) = true
  /\ is_finite (parseFloat (sepsisRisk inc ga t r b a)) = true
  /\ (0 <=? parseFloat (sepsisRisk inc ga t r b a)) = true.
Proof.
  intros Hinc Hga Ht Hr Hb Ha.
  set (ok := fun inc ga t r b a =>
               let risk := sepsisRisk inc ga t r b a in
               isFixed2 risk && is_finite (parseFloat risk)
               && (0 <=? parseFloat risk)).
  assert (Hall : forallb (fun inc => forCodes (ok inc)) incidenceOptions = true)
    by (vm_compute; reflexivity).
  pose proof (forallb_elem_of _ _ _ Hall Hinc) as H1. cbv beta in H1.
  pose proof (forCodes_elem_of _ _ _ _ _ _ H1 Hga Ht Hr Hb Ha) as H2.
  unfold ok in H2. cbv zeta in H2.
  apply andb_true_iff in H2 as [H2 H3]. apply andb_true_iff in H2 as [H2 H4].
  auto.
Qed.

Lemma preset_risk_two_decimals_witness :
  isFixed2 (sepsisRisk "0.5" "≤34 6/7" "≥38" ">24" "positive" "adequate_pen_amp") = true
  /\ is_finite (parseFloat
       (sepsisRisk "0.5" "≤34 6/7" "≥38" ">24" "positive" "adequate_pen_amp")) = true
  /\ (0 <=? parseFloat
       (sepsisRisk "0.5" "≤34 6/7" "≥38" ">24" "positive" "adequate_pen_amp")) = true.
Proof.
  apply (preset_risk_two_decimals
           "0.5" "≤34 6/7" "≥38" ">24" "positive" "adequate_pen_amp");
    by_evaluation.
Defined.


(** C6, as the code has it.  Over the preset incidences and for every
    combination of enumerated codes, a larger incidence gives a strictly
    larger risk before rounding, and a risk string that is never smaller; the
    risk strings of two different incidences can be the same, since they are
    rounded to two decimals. *)
Theorem preset_risk_monotone (i1 i2 ga t r b a : string) :
  i1 ∈ incidenceOptions -> i2 ∈ incidenceOptions ->
  ga ∈ gestationalAgeOptions -> t ∈ highestTempOptions -> r ∈ romOptions ->
  b ∈ gbsStatusOptions -> a ∈ iapOptions ->
  (parseFloat i1 <? parseFloat i2) = true ->
  sepsisRisk i1 ga t r b a = toFixed (unroundedRisk i1 ga t r b a) 2
  /\ sepsisRisk i2 ga t r b a = toFixed (unroundedRisk i2 ga t r b a) 2
  /\ (unroundedRisk i1 ga t r b a <? unroundedRisk i2 ga t r b a) = true
  /\ (parseFloat (sepsisRisk i1 ga t r b a)
        <=? parseFloat (sepsisRisk i2 ga t r b a)) = true.
Proof.
  intros H1 H2 Hga Ht Hr Hb Ha Hlt.
  assert (Hguard : forall i, i ∈ incidenceOptions ->
            isNaN (parseFloat i) || (parseFloat i <=? 0) = false).
  { intros i Hi.
    assert (Hg : forallb (fun i => negb (isNaN (parseFloat i) || (parseFloat i <=? 0)))
                   incidenceOptions = true) by reflexivity.
    apply negb_true_iff, (forallb_elem_of _ _ _ Hg Hi). }
  split; [apply sepsisRisk_unrounded, Hguard, H1|].
  split; [apply sepsisRisk_unrounded, Hguard, H2|].
  assert (Hall : forCodes (fun ga t r b a => increasing (presetRisks ga t r b a)) = true)
    by (vm_compute; reflexivity).
  pose proof (forCodes_elem_of _ _ _ _ _ _ Hall Hga Ht Hr Hb Ha) as Hinc.
  cbv beta in Hinc. unfold increasing in Hinc.
  set (f := fun inc => (parseFloat inc, unroundedRisk inc ga t r b a,
                        parseFloat (sepsisRisk inc ga t r b a))) in *.
  assert (Hp : f i1 ∈ presetRisks ga t r b a) by apply list_elem_of_fmap_2, H1.
  assert (Hq : f i2 ∈ presetRisks ga t r b a) by apply list_elem_of_fmap_2, H2.
  pose proof (forallb_elem_of _ _ _ Hinc Hp) as Hrow. cbv beta in Hrow.
  pose proof (forallb_elem_of _ _ _ Hrow Hq) as Hcell. cbv beta in Hcell.
  unfold f in Hcell. simpl in Hcell. rewrite Hlt in Hcell.
  apply andb_true_iff in Hcell. exact Hcell.
Qed.

Lemma preset_risk_monotone_witness :
  sepsisRisk "0.3" "≥42" "≥38" "12-18" "positive" "inadequate_or_no"
  = toFixed (unroundedRisk "0.3" "≥42" "≥38" "12-18" "positive" "inadequate_or_no") 2
  /\ sepsisRisk "0.7" "≥42" "≥38" "12-18" "positive" "inadequate_or_no"
     = toFixed (unroundedRisk "0.7" "≥42" "≥38" "12-18" "positive" "inadequate_or_no") 2
  /\ (unroundedRisk "0.3" "≥42" "≥38" "12-18" "positive" "inadequate_or_no"
        <? unroundedRisk "0.7" "≥42" "≥38" "12-18" "positive" "inadequate_or_no") = true
  /\ (parseFloat (sepsisRisk "0.3" "≥42" "≥38" "12-18" "positive" "inadequate_or_no")
        <=? parseFloat (sepsisRisk "0.7" "≥42" "≥38" "12-18" "positive" "inadequate_or_no"))
     = true.
Proof.
  apply (preset_risk_monotone
           "0.3" "0.7" "≥42" "≥38" "12-18" "positive" "inadequate_or_no");
    by_evaluation.
Defined.

(** C6, as stated, fails, and so does its non-strict form over arbitrary
    positive incidences.  Incidences 0.2 and 0.3 with the lowest ratios both
    give "0.01"; and with the codes ≥42, ≥38, <12, positive and
    adequate_cefazolin the neighbouring doubles 5.794739787617517 and
    5.794739787617518 give "14.29" and then "14.28": the larger incidence
    has the smaller risk, since the quotient [odds / (1 + odds)] is rounded
    one unit lower. *)
Lemma risk_not_increasing_on_doubles :
  ~ (forall i1 i2 ga t r b a : string,
       ga ∈ gestationalAgeOptions -> t ∈ highestTempOptions -> r ∈ romOptions ->
       b ∈ gbsStatusOptions -> a ∈ iapOptions ->
       (0 <? parseFloat i1) = true ->
       (parseFloat i1 <? parseFloat i2) = true ->
       (parseFloat (sepsisRisk i1 ga t r b a)
          <? parseFloat (sepsisRisk i2 ga t r b a)) = true)
  /\ ~ (forall i1 i2 ga t r b a : string,
         ga ∈ gestationalAgeOptions -> t ∈ highestTempOptions -> r ∈ romOptions ->
         b ∈ gbsStatusOptions -> a ∈ iapOptions ->
         (0 <? parseFloat i1) = true ->
         (parseFloat i1 <? parseFloat i2) = true ->
         (parseFloat i2 <? 1000) = true ->
         (parseFloat (sepsisRisk i1 ga t r b a)
            <=? parseFloat (sepsisRisk i2 ga t r b a)) = true)
  /\ sepsisRisk "5.794739787617517" "≥42" "≥38" "<12" "positive" "adequate_cefazolin"
     = "14.29"%string
  /\ sepsisRisk "5.794739787617518" "≥42" "≥38" "<12" "positive" "adequate_cefazolin"
     = "14.28"%string.
Proof.
  split; [|split; [|split; vm_compute; reflexivity]].
  - intros H.
    assert (Hce : (parseFloat (sepsisRisk "0.2" "37 0/7-37 6/7" "<38" "<12"
                                 "negative" "no_iap_needed")
                     <? parseFloat (sepsisRisk "0.3" "37 0/7-37 6/7" "<38" "<12"
                                      "negative" "no_iap_needed")) = true).
    { apply H; by_evaluation. }
    vm_compute in Hce. discriminate Hce.
  - intros H.
    assert (Hce : (parseFloat (sepsisRisk "5.794739787617517" "≥42" "≥38" "<12"
                                 "positive" "adequate_cefazolin")
                     <=? parseFloat (sepsisRisk "5.794739787617518" "≥42" "≥38" "<12"
                                       "positive" "adequate_cefazolin")) = true).
    { apply H; by_evaluation. }
    vm_compute in Hce. discriminate Hce.
Qed.

End Enumerated.

(** ** Codes outside the table and incidences past the guard *)

Section Unguarded.
Local Open Scope float_scope.

(** Once the posterior odds are NaN the risk is "NaN". *)
Lemma risk_of_nan_odds : toFixed (nan / (1 + nan) * 1000) 2 = "NaN"%string.
Proof. vm_compute. reflexivity. Qed.

Lemma recommendation_NaN : text (recommendation "NaN") = "Routine Care"%string.
Proof. vm_compute. reflexivity. Qed.

(** A missing ratio makes the combined ratio NaN. *)
Lemma combinedLR_nan (lg lt lr lb li : option Number) :
  lg = None \/ lt = None \/ lr = None \/ lb = None \/ li = None ->
  ToNumber lg * ToNumber lt * ToNumber lr * ToNumber lb * ToNumber li = nan.
Proof.
  intros [-> | [-> | [-> | [-> | ->]]]]; simpl;
    rewrite ?mul_nan_l, ?mul_nan_r, ?mul_nan_l; reflexivity.
Qed.

(** C8, as the code has it.  Every option key of a select is a key of its
    sub-table, so a lookup by an enumerated code succeeds.  A lookup by
    another code does not fail: it reads no number, the arithmetic turns
    that into NaN, and for an incidence that passes the guard the risk is
    the string "NaN", for which the recommendation is "Routine Care". *)
Theorem lookup_outcomes :
  (Forall (fun k => is_Some (LIKELIHOOD_RATIOS.gestationalAge !! k)) gestationalAgeOptions
   /\ Forall (fun k => is_Some (LIKELIHOOD_RATIOS.highestTemp !! k)) highestTempOptions
   /\ Forall (fun k => is_Some (LIKELIHOOD_RATIOS.rom !! k)) romOptions
   /\ Forall (fun k => is_Some (LIKELIHOOD_RATIOS.gbsStatus !! k)) gbsStatusOptions
   /\ Forall (fun k => is_Some (LIKELIHOOD_RATIOS.iap !! k)) iapOptions
   /\ Forall (fun b => Forall (fun a => is_Some (lrIap b a)) iapOptions) gbsStatusOptions)
  /\ (forall inc ga t r b a : string,
        isNaN (parseFloat inc) || (parseFloat inc <=? 0) = false ->
        LIKELIHOOD_RATIOS.gestationalAge !! ga = None
        \/ LIKELIHOOD_RATIOS.highestTemp !! t = None
        \/ LIKELIHOOD_RATIOS.rom !! r = None
        \/ LIKELIHOOD_RATIOS.gbsStatus !! b = None
        \/ lrIap b a = None ->
        sepsisRisk inc ga t r b a = "NaN"%string
        /\ text (recommendation (sepsisRisk inc ga t r b a)) = "Routine Care"%string).
Proof.
  split.
  - exact enumerated_lookups.
  - intros inc ga t r b a Hguard Hmiss.
    assert (Hrisk : sepsisRisk inc ga t r b a = "NaN"%string).
    { rewrite (sepsisRisk_computed _ _ _ _ _ _ Hguard). cbv zeta.
      rewrite (combinedLR_nan _ _ _ _ _ Hmiss), mul_nan_r.
      apply risk_of_nan_odds. }
    rewrite Hrisk. split; [reflexivity | apply recommendation_NaN].
Qed.

Lemma lookup_outcomes_witness :
  sepsisRisk "0.5" "43 0/7" "<38" "<12" "negative" "no_iap_needed" = "NaN"%string
  /\ text (recommendation
             (sepsisRisk "0.5" "43 0/7" "<38" "<12" "negative" "no_iap_needed"))
     = "Routine Care"%string.
Proof.
  apply (proj2 lookup_outcomes "0.5" "43 0/7" "<38" "<12" "negative" "no_iap_needed").
  - vm_compute. reflexivity.
  - left. vm_compute. reflexivity.
Defined.

(** C8, as stated, fails: the gestational age code "43 0/7" is not a key
    of the table, and the calculation does not stop there; it returns the
    string "NaN", and the recommendation shown for it is "Routine Care". *)
Lemma lookup_miss_is_silent :
  LIKELIHOOD_RATIOS.gestationalAge !! "43 0/7" = None
  /\ sepsisRisk "0.5" "43 0/7" "<38" "<12" "negative" "no_iap_needed" = "NaN"%string
  /\ renderedRecommendation (setGestationalAge "43 0/7" initialState)
     = {| text := "Routine Care"; color := "bg-green-500" |}.
Proof. repeat split; vm_compute; reflexivity. Qed.








End Unguarded.

Import Ui.

(** ** The form in use *)

Section FormInUse.

Lemma reachable_synchronised (st : FormState) : reachable st -> synchronised st.
Proof.
  induction 1 as [|st ev _ IH Hen].
  - intros _. reflexivity.
  - apply step_synchronised; assumption.
Qed.

Lemma lrIap_suppressed (b a : string) :
  b <> "positive" -> lrIap b a = Some 1.0%float.
Proof.
  intros Hb. unfold lrIap. rewrite (proj2 (String.eqb_neq _ _) Hb), orb_true_r.
  reflexivity.
Qed.

(** The risk rendered in a state is the one rendered after the effect. *)
Lemma renderedRisk_gbsEffect (st : FormState) :
  renderedRisk (gbsEffect st) = renderedRisk st.
Proof.
  unfold gbsEffect. destruct (String.eqb_spec (gbsStatus st) "positive") as [Hb|Hb];
    [reflexivity|].
  unfold renderedRisk, sepsisRisk. simpl.
  rewrite !(lrIap_suppressed _ _ Hb). reflexivity.
Qed.

(** X1.  Reset, from any state whatever, settles in the initial state of
    the form, which is also the state after mounting; the risk shown there
    is "0.07" and the recommendation "Routine Care", in green. *)
Theorem reset_restores_defaults (st : FormState) :
  step st ClickReset = initialState
  /\ mounted = initialState
  /\ renderedRisk (step st ClickReset) = "0.07"
  /\ renderedRecommendation (step st ClickReset) = routine.
Proof.
  assert (Hstep : step st ClickReset = initialState).
  { unfold step, runEffects. simpl.
    destruct (String.eqb _ _); reflexivity. }
  rewrite Hstep. repeat split; vm_compute; reflexivity.
Qed.

(** X2.  The render that follows a handler, before the effect runs, shows
    the risk and the recommendation of the settled state: the effect changes
    [iap] only when the calculation ignores it. *)
Theorem no_stale_risk (st : FormState) (ev : Event) :
  renderedRisk (handle ev st) = renderedRisk (step st ev)
  /\ renderedRecommendation (handle ev st) = renderedRecommendation (step st ev).
Proof.
  assert (H : renderedRisk (step st ev) = renderedRisk (handle ev st)).
  { unfold step, runEffects. destruct (String.eqb _ _);
      [reflexivity | apply renderedRisk_gbsEffect]. }
  unfold renderedRecommendation. rewrite H. split; reflexivity.
Qed.

Lemma runEffects_same (prev next : FormState) :
  gbsStatus prev = gbsStatus next -> runEffects prev next = next.
Proof. intros H. unfold runEffects. rewrite H, String.eqb_refl. reflexivity. Qed.

Lemma FormState_eta (st : FormState) :
  {| incidence := incidence st; gestationalAge := gestationalAge st;
     highestTemp := highestTemp st; rom := rom st;
     gbsStatus := gbsStatus st; iap := iap st |} = st.
Proof. destruct st. reflexivity. Qed.

Lemma runEffects_frame (prev next : FormState) :
  incidence (runEffects prev next) = incidence next
  /\ gestationalAge (runEffects prev next) = gestationalAge next
  /\ highestTemp (runEffects prev next) = highestTemp next
  /\ rom (runEffects prev next) = rom next
  /\ gbsStatus (runEffects prev next) = gbsStatus next.
Proof.
  unfold runEffects, gbsEffect.
  destruct (String.eqb _ _); [auto|]. destruct (negb _); auto.
Qed.

(** X3.  An event that is repeated changes nothing the second time. *)
Theorem event_idempotent (st : FormState) (ev : Event) :
  step (step st ev) ev = step st ev.
Proof.
  assert (Hh : handle ev (step st ev) = step st ev).
  { destruct (runEffects_frame st (handle ev st)) as (Hi & Hg & Ht & Hr & Hb).
    fold (step st ev) in Hi, Hg, Ht, Hr, Hb.
    destruct ev; simpl in *.
    - set (s := step st _) in *. clearbody s. subst v. destruct s. reflexivity.
    - set (s := step st _) in *. clearbody s. subst v. destruct s. reflexivity.
    - set (s := step st _) in *. clearbody s. subst v. destruct s. reflexivity.
    - set (s := step st _) in *. clearbody s. subst v. destruct s. reflexivity.
    - set (s := step st _) in *. clearbody s. subst v. destruct s. reflexivity.
    - (* ChangeIap: the status is as before, so no effect runs *)
      unfold step. rewrite runEffects_same by reflexivity. reflexivity.
    - unfold step, runEffects. simpl. destruct (String.eqb _ _); reflexivity. }
  unfold step at 1. rewrite Hh. apply runEffects_same. reflexivity.
Qed.

(** X4.  Changes of two different selections commute when one of them is
    the incidence, the gestational age, the temperature or the ROM: the
    settled state does not depend on the order. *)
Theorem free_changes_commute (st : FormState) (e1 e2 : Event) (f1 f2 : Field) :
  target e1 = Some f1 -> target e2 = Some f2 ->
  free f1 = true -> f1 <> f2 ->
  step (step st e1) e2 = step (step st e2) e1.
Proof.
  intros H1 H2 Hfree Hne.
  destruct e1, e2; simpl in H1, H2;
    try discriminate;
    injection H1 as <-; injection H2 as <-;
    try discriminate Hfree; try (exfalso; apply Hne; reflexivity);
    unfold step, runEffects, gbsEffect; simpl;
    rewrite ?String.eqb_refl; simpl;
    repeat match goal with
           | |- context [String.eqb ?x ?y] =>
               destruct (String.eqb x y); simpl; rewrite ?String.eqb_refl; simpl
           end;
    reflexivity.
Qed.

Lemma free_changes_commute_witness :
  step (step mounted (ChangeRom "18-24")) (ChangeGbsStatus "positive")
  = step (step mounted (ChangeGbsStatus "positive")) (ChangeRom "18-24").
Proof.
  apply (free_changes_commute mounted (ChangeRom "18-24")
           (ChangeGbsStatus "positive") FRom FGbsStatus);
    [reflexivity | reflexivity | reflexivity | discriminate].
Defined.

(** X5.  The IAP choice is not remembered: once the GBS status of a
    reachable state is set to a value other than [positive], [iap] is
    [no_iap_needed] and stays so when the status is set again, to
    [positive] or to anything else. *)
Theorem iap_choice_not_remembered (st : FormState) (v w : string) :
  reachable st -> v <> "positive" ->
  iap (step st (ChangeGbsStatus v)) = "no_iap_needed"
  /\ iap (step (step st (ChangeGbsStatus v)) (ChangeGbsStatus w)) = "no_iap_needed".
Proof.
  intros Hst Hv.
  set (s1 := step st (ChangeGbsStatus v)).
  assert (Hr1 : reachable s1) by (apply reachable_step; [exact Hst | reflexivity]).
  assert (Hb1 : gbsStatus s1 = v)
    by (unfold s1, step; rewrite runEffects_gbsStatus; reflexivity).
  assert (Hi1 : iap s1 = "no_iap_needed")
    by (apply (reachable_synchronised s1 Hr1); rewrite Hb1; exact Hv).
  split; [exact Hi1|].
  unfold step, runEffects, gbsEffect. simpl.
  destruct (String.eqb _ _); [exact Hi1|].
  destruct (negb _); simpl; [reflexivity | exact Hi1].
Qed.

Lemma iap_choice_not_remembered_witness :
  iap exampleRun = "adequate_pen_amp"
  /\ iap (step (step exampleRun (ChangeGbsStatus "negative"))
            (ChangeGbsStatus "positive")) = "no_iap_needed".
Proof.
  split; [reflexivity|].
  apply (proj2 (iap_choice_not_remembered exampleRun "negative" "positive"
                  ltac:(repeat (apply reachable_step; [|reflexivity]);
                        apply reachable_mounted)
                  ltac:(discriminate))).
Defined.

(** X6.  In the reachable states the dependency list of the effect changes
    nothing: running the effect after every handler, whether or not the GBS
    status changed, gives the same settled state. *)
Theorem effect_dependency_immaterial (st : FormState) (ev : Event) :
  reachable st -> enabled st ev = true ->
  gbsEffect (handle ev st) = step st ev.
Proof.
  intros Hst Hen. unfold step, runEffects.
  destruct (String.eqb_spec (gbsStatus st) (gbsStatus (handle ev st))) as [Heq|_];
    [|reflexivity].
  unfold gbsEffect.
  destruct (String.eqb_spec (gbsStatus (handle ev st)) "positive") as [_|Hnp];
    [reflexivity|]. simpl.
  assert (Hiap : iap (handle ev st) = "no_iap_needed").
  { pose proof (reachable_synchronised st Hst) as Hsync. unfold synchronised in Hsync.
    destruct ev; simpl in *; try (apply Hsync; congruence).
    - unfold iapDisabled in Hen. apply negb_true_iff, negb_false_iff in Hen.
      apply String.eqb_eq in Hen. congruence.
    - reflexivity. }
  rewrite <- Hiap at 1. unfold setIap. apply FormState_eta.
Qed.

Lemma effect_dependency_immaterial_witness :
  gbsEffect (handle (ChangeRom ">24") exampleRun) = step exampleRun (ChangeRom ">24").
Proof.
  apply (effect_dependency_immaterial exampleRun (ChangeRom ">24"));
    [repeat (apply reachable_step; [|reflexivity]); apply reachable_mounted
    | reflexivity].
Defined.

End FormInUse.

(** ** The values that the rendered form can show *)

Section Shown.
Local Open Scope float_scope.

Lemma gbsEffect_withinOptions (st : FormState) :
  withinOptions st -> withinOptions (gbsEffect st).
Proof.
  unfold gbsEffect. destruct (negb _); [|auto].
  intros (Hi & Hg & Ht & Hr & Hb & _). repeat split; try assumption.
  by_evaluation.
Qed.

Lemma step_withinOptions (st : FormState) (ev : Event) :
  withinOptions st -> offered ev -> withinOptions (step st ev).
Proof.
  intros Hst Hev.
  assert (Hh : withinOptions (handle ev st)).
  { destruct Hst as (Hi & Hg & Ht & Hr & Hb & Ha).
    destruct ev; simpl in *; repeat split; try assumption; by_evaluation. }
  unfold step, runEffects. destruct (String.eqb _ _);
    [exact Hh | apply gbsEffect_withinOptions, Hh].
Qed.

Lemma reachableUi_withinOptions (st : FormState) :
  reachableUi st -> withinOptions st.
Proof.
  induction 1 as [|st ev _ IH _ Hev].
  - repeat split; by_evaluation.
  - apply step_withinOptions; assumption.
Qed.

(** X7.  Through the rendered form the selections never leave the options
    of their selects, so that in every state the user reaches each of the
    five ratios is found in the table. *)
Theorem form_lookups_never_miss (st : FormState) :
  reachableUi st ->
  withinOptions st
  /\ is_Some (LIKELIHOOD_RATIOS.gestationalAge !! gestationalAge st)
  /\ is_Some (LIKELIHOOD_RATIOS.highestTemp !! highestTemp st)
  /\ is_Some (LIKELIHOOD_RATIOS.rom !! rom st)
  /\ is_Some (LIKELIHOOD_RATIOS.gbsStatus !! gbsStatus st)
  /\ is_Some (lrIap (gbsStatus st) (iap st)).
Proof.
  intros Hst. pose proof (reachableUi_withinOptions st Hst) as Hin.
  split; [exact Hin|].
  destruct Hin as (_ & Hg & Ht & Hr & Hb & Ha).
  destruct enumerated_lookups as (Fga & Ft & Fr & Fb & _ & Fa).
  repeat split.
  - exact (proj1 (Forall_forall _ _) Fga _ Hg).
  - exact (proj1 (Forall_forall _ _) Ft _ Ht).
  - exact (proj1 (Forall_forall _ _) Fr _ Hr).
  - exact (proj1 (Forall_forall _ _) Fb _ Hb).
  - exact (proj1 (Forall_forall _ _) (proj1 (Forall_forall _ _) Fa _ Hb) _ Ha).
Qed.

Lemma form_lookups_never_miss_witness :
  is_Some (lrIap (gbsStatus exampleRun) (iap exampleRun)).
Proof.
  apply (form_lookups_never_miss exampleRun).
  unfold exampleRun.
  repeat (apply reachableUi_step; [| reflexivity | by_evaluation]).
  apply reachableUi_mounted.
Defined.

Lemma offered_inRange :
  forallb (fun inc => forCodes (fun ga t r b a => inRange (sepsisRisk inc ga t r b a)))
    incidenceOptions = true.
Proof. vm_compute. reflexivity. Qed.

(** X8.  In every state that the user reaches through the rendered form,
    the risk shown is a string of digits with two decimals that denotes a
    number from 0.01 to 34.54: never "0.00", never "NaN". *)
Theorem shown_risk_in_range (st : FormState) :
  reachableUi st ->
  isFixed2 (renderedRisk st) = true
  /\ (0.01 <=? parseFloat (renderedRisk st)) = true
  /\ (parseFloat (renderedRisk st) <=? 34.54) = true.
Proof.
  intros Hst.
  destruct (reachableUi_withinOptions st Hst) as (Hi & Hg & Ht & Hr & Hb & Ha).
  pose proof (forallb_elem_of _ _ _ offered_inRange Hi) as H1. cbv beta in H1.
  pose proof (forCodes_elem_of _ _ _ _ _ _ H1 Hg Ht Hr Hb Ha) as H2.
  unfold inRange in H2. fold (renderedRisk st) in H2.
  apply andb_true_iff in H2 as [H2 H3]. apply andb_true_iff in H2 as [H2 H4].
  auto.
Qed.

Lemma shown_risk_in_range_witness :
  isFixed2 (renderedRisk exampleRun) = true
  /\ (0.01 <=? parseFloat (renderedRisk exampleRun)) = true
  /\ (parseFloat (renderedRisk exampleRun) <=? 34.54) = true.
Proof.
  apply (shown_risk_in_range exampleRun).
  unfold exampleRun.
  repeat (apply reachableUi_step; [| reflexivity | by_evaluation]).
  apply reachableUi_mounted.
Defined.

End Shown.

(** ** The three recommendations *)

Section Tiers.
Local Open Scope float_scope.

(** X9.  The recommendation is one of three values, each with its own
    colour, and which one is decided completely: red "Empiric Antibiotics
    Recommended" exactly above 1.18, yellow "Enhanced Vital Signs" exactly
    from 0.65 to 1.18, and green "Routine Care" exactly for the numbers below
    0.65 and for NaN. *)
Theorem classify_decided (risk : Number) :
  (classify risk = empiric <-> (1.18 <? risk) = true)
  /\ (classify risk = enhanced <-> (0.65 <=? risk) = true /\ (risk <=? 1.18) = true)
  /\ (classify risk = routine <-> (risk <? 0.65) = true \/ isNaN risk = true)
  /\ (classify risk = empiric \/ classify risk = enhanced \/ classify risk = routine).
Proof.
  unfold classify, empiric, enhanced, routine, isNaN.
  destruct (is_nan risk) eqn:Hnan.
  - destruct (nan_not_compared risk 1.18 Hnan) as (_ & -> & -> & _).
    destruct (nan_not_compared risk 0.65 Hnan) as (-> & _ & _ & ->).
    simpl. repeat split; try discriminate; auto; intros [? ?]; discriminate.
  - pose proof (leb_total 0.65 risk eq_refl Hnan) as Hlo.
    pose proof (leb_total risk 1.18 Hnan eq_refl) as Hhi.
    destruct (1.18 <? risk) eqn:Hgt; simpl in Hhi.
    + rewrite Hhi.
      assert (Hlt : (risk <? 0.65) = false).
      { destruct (risk <? 0.65) eqn:E; [|reflexivity].
        pose proof (ltb_trans _ _ _ Hgt E) as Habs. vm_compute in Habs.
        discriminate Habs. }
      rewrite Hlt in *. simpl in Hlo. rewrite Hlo.
      repeat split; try discriminate; auto; try (intros [? ?]; discriminate).
      intros [?|?]; discriminate.
    + rewrite Hhi. destruct (risk <? 0.65) eqn:Hlt; simpl in Hlo; rewrite Hlo; simpl.
      * repeat split; try discriminate; auto; intros [? ?]; discriminate.
      * repeat split; try discriminate; auto. intros [?|?]; discriminate.
Qed.

End Tiers.

(** ** The risk as a function of the combined ratio *)

Section Ratio.
Local Open Scope float_scope.

Lemma allCodes_elem_of (ga t r b a : string) :
  ga ∈ gestationalAgeOptions -> t ∈ highestTempOptions -> r ∈ romOptions ->
  b ∈ gbsStatusOptions -> a ∈ iapOptions ->
  (ga, t, r, b, a) ∈ allCodes.
Proof.
  intros Hga Ht Hr Hb Ha. unfold allCodes.
  apply list_elem_of_bind. exists ga. split; [|exact Hga].
  apply list_elem_of_bind. exists t. split; [|exact Ht].
  apply list_elem_of_bind. exists r. split; [|exact Hr].
  apply list_elem_of_bind. exists b. split; [|exact Hb].
  apply list_elem_of_bind. exists a. split; [|exact Ha].
  apply list_elem_of_here.
Qed.

Lemma offered_ordered :
  forallb (fun inc => ordered (riskByRatio inc)) incidenceOptions = true.
Proof. vm_compute. reflexivity. Qed.

(** X10.  Over the inputs that the form offers, and for a fixed incidence,
    the risk shown never decreases when the combined likelihood ratio
    increases: of two combinations of codes, the one whose product of ratios
    is not larger is shown a risk that is not larger. *)
Theorem risk_ordered_by_ratio
    (inc ga1 t1 r1 b1 a1 ga2 t2 r2 b2 a2 : string) :
  inc ∈ incidenceOptions ->
  ga1 ∈ gestationalAgeOptions -> t1 ∈ highestTempOptions -> r1 ∈ romOptions ->
  b1 ∈ gbsStatusOptions -> a1 ∈ iapOptions ->
  ga2 ∈ gestationalAgeOptions -> t2 ∈ highestTempOptions -> r2 ∈ romOptions ->
  b2 ∈ gbsStatusOptions -> a2 ∈ iapOptions ->
  (combinedLR ga1 t1 r1 b1 a1 <=? combinedLR ga2 t2 r2 b2 a2) = true ->
  (parseFloat (sepsisRisk inc ga1 t1 r1 b1 a1)
     <=? parseFloat (sepsisRisk inc ga2 t2 r2 b2 a2)) = true.
Proof.
  intros Hinc Hga1 Ht1 Hr1 Hb1 Ha1 Hga2 Ht2 Hr2 Hb2 Ha2 Hle.
  pose proof (forallb_elem_of _ _ _ offered_ordered Hinc) as Hord.
  cbv beta in Hord. unfold ordered in Hord.
  set (f := fun c : string * string * string * string * string =>
              let '(ga, t, r, b, a) := c in
              (combinedLR ga t r b a, parseFloat (sepsisRisk inc ga t r b a))) in *.
  assert (Hp : f (ga1, t1, r1, b1, a1) ∈ riskByRatio inc)
    by (apply list_elem_of_fmap_2, allCodes_elem_of; assumption).
  assert (Hq : f (ga2, t2, r2, b2, a2) ∈ riskByRatio inc)
    by (apply list_elem_of_fmap_2, allCodes_elem_of; assumption).
  pose proof (forallb_elem_of _ _ _ Hord Hp) as Hrow. cbv beta in Hrow.
  pose proof (forallb_elem_of _ _ _ Hrow Hq) as Hcell. cbv beta in Hcell.
  unfold f in Hcell. simpl in Hcell. rewrite Hle in Hcell. exact Hcell.
Qed.

Lemma risk_ordered_by_ratio_witness :
  (parseFloat (sepsisRisk "0.5" "≥42" "<38" "<12" "negative" "no_iap_needed")
     <=? parseFloat (sepsisRisk "0.5" "≥42" "<38" "<12" "positive" "adequate_pen_amp"))
  = true.
Proof.
  apply (risk_ordered_by_ratio "0.5"
           "≥42" "<38" "<12" "negative" "no_iap_needed"
           "≥42" "<38" "<12" "positive" "adequate_pen_amp");
    by_evaluation.
Defined.

(** The codes enter the calculation through the combined ratio only. *)
Lemma sepsisRisk_combinedLR (inc ga t r b a ga' t' r' b' a' : string) :
  combinedLR ga t r b a = combinedLR ga' t' r' b' a' ->
  sepsisRisk inc ga t r b a = sepsisRisk inc ga' t' r' b' a'.
Proof.
  unfold combinedLR, sepsisRisk. intros H.
  destruct (isNaN (parseFloat inc) || (parseFloat inc <=? 0)); [reflexivity|].
  cbv zeta. rewrite H. reflexivity.
Qed.

Lemma treated_ratio :
  forallb (fun ga =>
    forallb (fun t =>
      forallb (fun r =>
        Leibniz.eqb (combinedLR ga t r "positive" "adequate_pen_amp")
                    (combinedLR ga t r "negative" "no_iap_needed"))
        romOptions) highestTempOptions) gestationalAgeOptions = true.
Proof. vm_compute. reflexivity. Qed.

(** X11.  A GBS-positive mother who had adequate penicillin or ampicillin
    is shown the risk of a GBS-negative mother, digit for digit, whatever the
    incidence text and whatever IAP code the negative state holds: the
    ratios 2.0 and 0.2 multiply to the ratio 0.4 of a negative status. *)
Theorem adequate_penicillin_as_negative (inc ga t r a : string) :
  ga ∈ gestationalAgeOptions -> t ∈ highestTempOptions -> r ∈ romOptions ->
  sepsisRisk inc ga t r "positive" "adequate_pen_amp"
  = sepsisRisk inc ga t r "negative" a.
Proof.
  intros Hga Ht Hr. apply sepsisRisk_combinedLR.
  pose proof (forallb_elem_of _ _ _ treated_ratio Hga) as H1. cbv beta in H1.
  pose proof (forallb_elem_of _ _ _ H1 Ht) as H2. cbv beta in H2.
  pose proof (forallb_elem_of _ _ _ H2 Hr) as H3. cbv beta in H3.
  apply Leibniz.eqb_spec in H3. rewrite H3.
  unfold combinedLR. rewrite !(lrIap_suppressed "negative") by discriminate.
  reflexivity.
Qed.

Lemma adequate_penicillin_as_negative_witness :
  sepsisRisk "0.7" "≤34 6/7" "≥38" ">24" "positive" "adequate_pen_amp"
  = sepsisRisk "0.7" "≤34 6/7" "≥38" ">24" "negative" "no_iap_needed".
Proof.
  apply (adequate_penicillin_as_negative "0.7" "≤34 6/7" "≥38" ">24" "no_iap_needed");
    by_evaluation.
Defined.

End Ratio.
